(** * SneakSync marketplace backend: listing, offer and checkout logic

    A shallow embedding of [src/main.py] and [src/schemas.py].  Python
    dictionaries are finite maps with string keys, the MongoDB database is a
    finite map from collection names to the list of stored documents in
    natural (insertion) order, and every handler is a function in a small
    state-and-exception monad over that database. *)

From Stdlib Require Import Floats Ascii String NArith ZArith.
From stdpp Require Import gmap strings list fin_maps.
From stdpp Require Import pretty.

#[local] Set Warnings "-register-all".
#[local] Open Scope string_scope.
#[local] Open Scope list_scope.

(** ** Characters and strings *)

Definition ascii_code (c : ascii) : N := N_of_ascii c.

Definition is_digit (c : ascii) : bool :=
  (48 <=? ascii_code c)%N && (ascii_code c <=? 57)%N.

Definition is_upper (c : ascii) : bool :=
  (65 <=? ascii_code c)%N && (ascii_code c <=? 90)%N.

Definition is_hex_digit (c : ascii) : bool :=
  is_digit c
  || ((65 <=? ascii_code c)%N && (ascii_code c <=? 70)%N)
  || ((97 <=? ascii_code c)%N && (ascii_code c <=? 102)%N).

(** ASCII case folding, as [str.lower] and the regex option [i] do on
    ASCII text. *)
Definition ascii_lower (c : ascii) : ascii :=
  if is_upper c then ascii_of_N (ascii_code c + 32) else c.

Fixpoint str_lower (s : string) : string :=
  match s with
  | EmptyString => EmptyString
  | String c r => String (ascii_lower c) (str_lower r)
  end.

Fixpoint str_forall (p : ascii -> bool) (s : string) : bool :=
  match s with
  | EmptyString => true
  | String c r => p c && str_forall p r
  end.

Definition str_eqb (a b : string) : bool := bool_decide (a = b).

(** ** bson.ObjectId

    An ObjectId holds bytes, twelve of them when the driver or the server
    made it; it is represented here by what [str(oid)] prints, its bytes in
    lower-case hexadecimal digits (24 of them for twelve bytes). *)

Record ObjectId := mkOid { oid_hex : string }.

#[global] Instance ObjectId_eq_dec : EqDecision ObjectId.
Proof. solve_decision. Defined.

(** ASCII white space, which [bytes.fromhex] skips in front of a byte. *)
Definition is_space (c : ascii) : bool :=
  ((9 <=? ascii_code c)%N && (ascii_code c <=? 13)%N) || (ascii_code c =? 32)%N.

(** [bytes.fromhex(s).hex()]: the bytes the text spells, two hexadecimal
    digits each, with the white space in front of a byte and at the end
    skipped; [None] where [fromhex] raises [ValueError]. *)
Fixpoint fromhex (s : string) : option string :=
  match s with
  | EmptyString => Some EmptyString
  | String c r =>
    if is_space c then fromhex r
    else
      match r with
      | String d r' =>
        if is_hex_digit c && is_hex_digit d
        then String (ascii_lower c) <$> (String (ascii_lower d) <$> fromhex r')
        else None
      | EmptyString => None
      end
  end.

(** [ObjectId.is_valid(s)] for a [str]: [ObjectId(s)] does not raise, that
    is, the text has 24 characters and [bytes.fromhex] reads it. *)
Definition ObjectId_is_valid (s : string) : bool :=
  (String.length s =? 24)%nat
  && match fromhex s with Some _ => true | None => false end.

(** [ObjectId(s)] for a valid [s]: the bytes that [bytes.fromhex] read.
    They remember neither the case of the digits nor the white space, and
    they are fewer than twelve when the text held white space. *)
Definition ObjectId_of_str (s : string) : ObjectId :=
  mkOid (default EmptyString (fromhex s)).

(** A text of exactly 24 hexadecimal digits: what [str] prints for an
    identifier of twelve bytes, up to the case of the letters. *)
Definition hex24 (s : string) : bool :=
  (String.length s =? 24)%nat && str_forall is_hex_digit s.

(** ** Python / BSON values *)

Inductive value : Type :=
| VNone
| VBool (b : bool)
| VInt (z : Z)
| VFloat (f : float)
| VStr (s : string)
| VOid (o : ObjectId)
| VDate (t : Z)
| VUrl (u : string)
| VList (l : list value)
| VDict (d : gmap string value).

(** A Python [dict] keyed by strings. *)
Abbreviation dict := (gmap string value).

Definition is_oid (v : value) : bool :=
  match v with VOid _ => true | _ => false end.

Definition value_is_str (v : value) (s : string) : bool :=
  match v with VStr t => str_eqb t s | _ => false end.

(** Truth value of an object, as [if x:] and [x and y] test it. *)
Definition py_truthy (v : value) : bool :=
  match v with
  | VNone => false
  | VBool b => b
  | VInt z => negb (z =? 0)%Z
  | VFloat f => negb (PrimFloat.eqb f 0%float)
  | VStr s => negb (str_eqb s "")
  | VOid _ => true
  | VDate _ => true
  | VUrl _ => true
  | VList l => match l with [] => false | _ => true end
  | VDict d => match map_to_list d with [] => false | _ => true end
  end.

Definition opt_truthy (o : option value) : bool :=
  match o with Some v => py_truthy v | None => false end.

(** [raw_id_free v]: no storage-native identifier occurs anywhere in [v]. *)
Fixpoint raw_id_free (v : value) : bool :=
  match v with
  | VOid _ => false
  | VList l => forallb raw_id_free l
  | VDict d => map_fold (fun _ x acc => raw_id_free x && acc) true d
  | _ => true
  end.

(** ** Exceptions *)

Inductive exception : Type :=
| HTTPException (status_code : Z) (detail : string)
| ValidationError (model : string)
| KeyError (key : string)
| TypeError
| ValueError
| OperationFailure
| RequestValidationError
| InvalidDocument
| OverflowError
| Unmodelled (what : string).

Abbreviation result A := (sum exception A).

(** ** The document store *)

(** A stored document: MongoDB gives every document an [_id]; in this
    application every one is a driver-generated ObjectId. *)
Record Document := mkDoc { doc_id : ObjectId; doc_body : dict }.

(** The dictionary the driver hands to Python for a stored document. *)
Definition to_dict (d : Document) : dict :=
  <["_id" := VOid (doc_id d)]> (doc_body d).

Abbreviation Store := (gmap string (list Document)).

(** [db[name]]: a collection that was never written to is empty. *)
Definition coll (st : Store) (name : string) : list Document :=
  default [] (st !! name).

(** ** State and exceptions

    A handler reads and writes the database and either returns or raises.
    What it wrote before raising stays written: there is no transaction. *)

Definition M (A : Type) : Type := Store -> Store * result A.

#[global] Instance M_ret : MRet M := fun A x st => (st, inr x).

#[global] Instance M_bind : MBind M := fun A B f m st =>
  match m st with
  | (st', inl e) => (st', inl e)
  | (st', inr x) => f x st'
  end.

Definition raise {A : Type} (e : exception) : M A := fun st => (st, inl e).

Definition lift {A : Type} (r : result A) : M A := fun st => (st, r).

(** [d[k]] *)
Definition getitem (d : dict) (k : string) : result value :=
  match d !! k with Some v => inr v | None => inl (KeyError k) end.

(** ** Regular expressions of the server

    The fragment of PCRE that is modelled: literal characters, [.], a
    postfix [*] on either, and the assertions [^] and [$].  A pattern that
    uses anything else is outside the model. *)

Inductive ratom : Type := RChar (c : ascii) | RAny.

Inductive ritem : Type :=
| RBol
| REol
| ROne (a : ratom)
| RStar (a : ratom).

Definition newline : ascii := ascii_of_N 10.

Definition ascii_eqb (a b : ascii) : bool := bool_decide (a = b).

(** The characters that are not read as themselves: those PCRE gives a
    meaning of their own, and NUL, which the server refuses in a pattern. *)
Definition is_meta (c : ascii) : bool :=
  ascii_eqb c (ascii_of_N 0)
  || existsb (ascii_eqb c) (list_ascii_of_string "\^$.|?*+()[]{}").

Fixpoint regex_parse (p : list ascii) : option (list ritem) :=
  match p with
  | [] => Some []
  | c :: rest =>
    if ascii_eqb c "^"%char then cons RBol <$> regex_parse rest
    else if ascii_eqb c "$"%char then cons REol <$> regex_parse rest
    else
      let atom :=
        if ascii_eqb c "."%char then Some RAny
        else if is_meta c then None
        else Some (RChar c) in
      match atom with
      | None => None
      | Some a =>
        match rest with
        | s :: rest' =>
          if ascii_eqb s "*"%char then cons (RStar a) <$> regex_parse rest'
          else cons (ROne a) <$> regex_parse rest
        | [] => Some [ROne a]
        end
      end
  end.

Definition atom_matches (icase : bool) (a : ratom) (c : ascii) : bool :=
  match a with
  | RAny => negb (ascii_eqb c newline)
  | RChar x =>
    if icase then ascii_eqb (ascii_lower x) (ascii_lower c) else ascii_eqb x c
  end.

(** [$] holds at the very end and before a final newline. *)
Definition at_end (text : list ascii) : bool :=
  match text with
  | [] => true
  | [c] => ascii_eqb c newline
  | _ => false
  end.

Fixpoint match_here (icase : bool) (items : list ritem) (at_start : bool)
    (text : list ascii) {struct items} : bool :=
  match items with
  | [] => true
  | RBol :: r => at_start && match_here icase r at_start text
  | REol :: r => at_end text && match_here icase r at_start text
  | ROne a :: r =>
    match text with
    | c :: t => atom_matches icase a c && match_here icase r false t
    | [] => false
    end
  | RStar a :: r =>
    (fix star (text : list ascii) (at_start : bool) {struct text} : bool :=
       match_here icase r at_start text
       || match text with
          | c :: t => atom_matches icase a c && star t false
          | [] => false
          end) text at_start
  end.

(** An unanchored search: a match may start at any position. *)
Fixpoint search_from (icase : bool) (items : list ritem) (at_start : bool)
    (text : list ascii) : bool :=
  match_here icase items at_start text
  || match text with
     | _ :: t => search_from icase items false t
     | [] => false
     end.

Definition regex_search (icase : bool) (items : list ritem) (text : string) : bool :=
  search_from icase items true (list_ascii_of_string text).

(** ** Queries of the server *)

Inductive cond : Type :=
| CEq (v : value)
| CRegex (pattern options : string).

(** A filter document: a field path with its condition, or [$or] over
    single-field alternatives.  The entries of a filter are conjoined. *)
Inductive clause : Type :=
| Field (path : list string) (c : cond)
| Or (alts : list (list string * cond)).

Inductive ccond : Type :=
| KEq (v : value)
| KRegex (icase : bool) (items : list ritem).

Inductive cclause : Type :=
| KField (path : list string) (c : ccond)
| KOr (alts : list (list string * ccond)).

Definition compile_cond (c : cond) : result ccond :=
  match c with
  | CEq v => inr (KEq v)
  | CRegex p o =>
    if negb (str_eqb o "" || str_eqb o "i") then inl (Unmodelled "regex options")
    else
      match regex_parse (list_ascii_of_string p) with
      | Some items => inr (KRegex (str_eqb o "i") items)
      | None => inl (Unmodelled "regex syntax")
      end
  end.

Fixpoint compile_alts (alts : list (list string * cond))
    : result (list (list string * ccond)) :=
  match alts with
  | [] => inr []
  | (p, c) :: r =>
    match compile_cond c, compile_alts r with
    | inl e, _ => inl e
    | _, inl e => inl e
    | inr k, inr ks => inr ((p, k) :: ks)
    end
  end.

Definition compile_clause (c : clause) : result cclause :=
  match c with
  | Field p c =>
    match compile_cond c with inl e => inl e | inr k => inr (KField p k) end
  | Or alts =>
    match compile_alts alts with inl e => inl e | inr ks => inr (KOr ks) end
  end.

Fixpoint compile_filter (f : list clause) : result (list cclause) :=
  match f with
  | [] => inr []
  | c :: r =>
    match compile_clause c, compile_filter r with
    | inl e, _ => inl e
    | _, inl e => inl e
    | inr k, inr ks => inr (k :: ks)
    end
  end.

(** Equality of a stored value with the operand of a filter.  The filters
    of main.py carry strings and ObjectIds only. *)
Definition bson_eqb (a b : value) : bool :=
  match a, b with
  | VNone, VNone => true
  | VBool x, VBool y => bool_decide (x = y)
  | VInt x, VInt y => bool_decide (x = y)
  | VStr x, VStr y => str_eqb x y
  | VOid x, VOid y => bool_decide (x = y)
  | VDate x, VDate y => bool_decide (x = y)
  | _, _ => false
  end.

(** The values a dotted path reaches; an array on the way is searched
    element by element. *)
Fixpoint path_values (path : list string) (v : value) : list value :=
  match path with
  | [] => [v]
  | k :: rest =>
    let step (x : value) :=
      match x with
      | VDict d =>
        match d !! k with Some y => path_values rest y | None => [] end
      | _ => []
      end in
    match v with
    | VList l => flat_map step l
    | _ => step v
    end
  end.

(** A condition holds of a value, or of some element when it is an array. *)
Definition holds_scalar (c : ccond) (y : value) : bool :=
  match c with
  | KEq v => bson_eqb y v
  | KRegex icase items =>
    match y with VStr s => regex_search icase items s | _ => false end
  end.

Definition holds (c : ccond) (y : value) : bool :=
  holds_scalar c y
  || match y with VList l => existsb (holds_scalar c) l | _ => false end.

Definition field_holds (doc : dict) (pc : list string * ccond) : bool :=
  existsb (holds pc.2) (path_values pc.1 (VDict doc)).

Definition clause_holds (doc : dict) (c : cclause) : bool :=
  match c with
  | KField p k => field_holds doc (p, k)
  | KOr alts => existsb (field_holds doc) alts
  end.

Definition matches (f : list cclause) (d : Document) : bool :=
  forallb (clause_holds (to_dict d)) f.

(** ** Collection operations of the driver *)

Fixpoint find_first (p : Document -> bool) (l : list Document) : option Document :=
  match l with
  | [] => None
  | d :: r => if p d then Some d else find_first p r
  end.

Fixpoint update_first (p : Document -> bool) (f : Document -> Document)
    (l : list Document) : list Document :=
  match l with
  | [] => []
  | d :: r => if p d then f d :: r else d :: update_first p f r
  end.

(** [db[name].find_one(f)] *)
Definition find_one (name : string) (f : list clause) : M (option dict) :=
  fun st =>
    match compile_filter f with
    | inl e => (st, inl e)
    | inr k => (st, inr (to_dict <$> find_first (matches k) (coll st name)))
    end.

(** [db[name].count_documents(f)] *)
Definition count_documents (name : string) (f : list clause) : M Z :=
  fun st =>
    match compile_filter f with
    | inl e => (st, inl e)
    | inr k => (st, inr (Z.of_nat (length (List.filter (matches k) (coll st name)))))
    end.

(** [$set]: the fields of [upd] replace those of the document. *)
Definition set_fields (upd : dict) (d : Document) : Document :=
  mkDoc (doc_id d) (upd ∪ doc_body d).

(** [db[name].update_one(f, {"$set": upd})]: the first match in natural
    order is updated; no match is no error. *)
Definition update_one (name : string) (f : list clause) (upd : dict) : M unit :=
  fun st =>
    match compile_filter f with
    | inl e => (st, inl e)
    | inr k =>
      (<[name := update_first (matches k) (set_fields upd) (coll st name)]> st, inr tt)
    end.

(** What [db[name].insert_one(data)] stores: the document, under the
    identifier [oid], after the documents of the collection. *)
Definition insert_one (name : string) (oid : ObjectId) (data : dict) (st : Store) : Store :=
  <[name := coll st name ++ [mkDoc oid data]]> st.

(** ** The encoder of the driver

    [insert_one] encodes the document to BSON before anything is sent.
    The encoder raises [InvalidDocument] for an object of a type it does
    not know (a URL object of pydantic is one) and for a key that holds a
    NUL character, and [OverflowError] for an integer outside 64 bits.
    The limits of the server (the size of a document, its rules on field
    names) are not modelled. *)

Definition no_nul (k : string) : bool :=
  str_forall (fun c => negb (ascii_code c =? 0)%N) k.

Definition int64 (z : Z) : bool :=
  (-9223372036854775808 <=? z)%Z && (z <=? 9223372036854775807)%Z.

(** Nothing in [v] makes the encoder raise [InvalidDocument]. *)
Fixpoint bson_types_ok (v : value) : bool :=
  match v with
  | VUrl _ => false
  | VList l => forallb bson_types_ok l
  | VDict d => map_fold (fun k x acc => no_nul k && bson_types_ok x && acc) true d
  | _ => true
  end.

(** Nothing in [v] makes the encoder raise [OverflowError]. *)
Fixpoint bson_ints_ok (v : value) : bool :=
  match v with
  | VInt z => int64 z
  | VList l => forallb bson_ints_ok l
  | VDict d => map_fold (fun _ x acc => bson_ints_ok x && acc) true d
  | _ => true
  end.

(** The encoder stops at the first value it refuses, in the order of the
    keys; a [dict] is a finite map here and does not keep that order, so
    with faults of both kinds the exception is outside the model. *)
Definition bson_encode (data : dict) : result unit :=
  match bson_types_ok (VDict data), bson_ints_ok (VDict data) with
  | true, true => inr tt
  | false, true => inl InvalidDocument
  | true, false => inl OverflowError
  | false, false => inl (Unmodelled "first fault of the encoder")
  end.

(** ** schemas.py *)

Definition in_literal (s : string) (options : list string) : bool :=
  existsb (str_eqb s) options.

(** [Field(..., ge=0)] on a float: [nan] fails it. *)
Definition float_ge0 (x : float) : bool := PrimFloat.leb 0%float x.

Definition opt_value {A : Type} (f : A -> value) (o : option A) : value :=
  match o with Some x => f x | None => VNone end.

Record Dimensions := mkDimensions {
  dim_length : Z;
  dim_width : Z;
  dim_height : Z
}.

Definition Dimensions_valid (d : Dimensions) : bool :=
  (0 <=? dim_length d)%Z && (0 <=? dim_width d)%Z && (0 <=? dim_height d)%Z.

Definition Dimensions_dump (d : Dimensions) : dict :=
  {[ "length" := VInt (dim_length d);
     "width" := VInt (dim_width d);
     "height" := VInt (dim_height d) ]}.

Record SizeVariant := mkSizeVariant {
  sv_size : string;
  sv_sku : string;
  sv_price : float;
  sv_currency : string;
  sv_inventory_quantity : Z
}.

Definition SizeVariant_valid (v : SizeVariant) : bool :=
  float_ge0 (sv_price v)
  && (String.length (sv_currency v) =? 3)%nat
  && (0 <=? sv_inventory_quantity v)%Z.

Definition SizeVariant_dump (v : SizeVariant) : dict :=
  {[ "size" := VStr (sv_size v);
     "sku" := VStr (sv_sku v);
     "price" := VFloat (sv_price v);
     "currency" := VStr (sv_currency v);
     "inventory_quantity" := VInt (sv_inventory_quantity v) ]}.

Definition condition_literal : list string :=
  ["new"; "used"; "like_new"; "open_box"].

(** The prefix [p] taken off the text, when the text starts with it. *)
Fixpoint strip_prefix (p s : string) : option string :=
  match p, s with
  | EmptyString, _ => Some s
  | String c p', String d s' => if ascii_eqb c d then strip_prefix p' s' else None
  | String _ _, EmptyString => None
  end.

(** What the text of every [HttpUrl] object shows: the scheme [http] or
    [https], and something after it.  The rest of the grammar of URLs is
    pydantic's and is not modelled. *)
Definition HttpUrl_valid (u : string) : bool :=
  match strip_prefix "http://" u, strip_prefix "https://" u with
  | Some rest, _ | None, Some rest => negb (str_eqb rest "")
  | None, None => false
  end.

(** Collection ["product"].  [images] and [gallery_video] are URL objects
    of pydantic, each held here by its text. *)
Record Product := mkProduct {
  product_title : string;
  product_slug : string;
  product_brand : string;
  product_model : string;
  product_release_year : Z;
  product_condition : string;
  product_size_variants : list SizeVariant;
  product_images : list string;
  product_gallery_video : option string;
  product_description : string;
  product_materials : option string;
  product_colorway : option string;
  product_tags : list string;
  product_authenticity_certificate : bool;
  product_seller_id : string;
  product_shipping_weight_grams : Z;
  product_dimensions_mm : Dimensions;
  product_created_at : option Z;
  product_updated_at : option Z
}.

Definition Product_valid (p : Product) : bool :=
  in_literal (product_condition p) condition_literal
  && forallb SizeVariant_valid (product_size_variants p)
  && forallb HttpUrl_valid (product_images p)
  && match product_gallery_video p with Some u => HttpUrl_valid u | None => true end
  && (0 <=? product_shipping_weight_grams p)%Z
  && Dimensions_valid (product_dimensions_mm p).

(** [product.model_dump()], in its default mode: the fields as Python
    objects, so that a URL stays a URL object and is not turned into text. *)
Definition Product_dump (p : Product) : dict :=
  list_to_map
    [ ("title", VStr (product_title p));
      ("slug", VStr (product_slug p));
      ("brand", VStr (product_brand p));
      ("model", VStr (product_model p));
      ("release_year", VInt (product_release_year p));
      ("condition", VStr (product_condition p));
      ("size_variants",
       VList ((fun v => VDict (SizeVariant_dump v)) <$> product_size_variants p));
      ("images", VList (VUrl <$> product_images p));
      ("gallery_video", opt_value VUrl (product_gallery_video p));
      ("description", VStr (product_description p));
      ("materials", opt_value VStr (product_materials p));
      ("colorway", opt_value VStr (product_colorway p));
      ("tags", VList (VStr <$> product_tags p));
      ("authenticity_certificate", VBool (product_authenticity_certificate p));
      ("seller_id", VStr (product_seller_id p));
      ("shipping_weight_grams", VInt (product_shipping_weight_grams p));
      ("dimensions_mm", VDict (Dimensions_dump (product_dimensions_mm p)));
      ("created_at", opt_value VDate (product_created_at p));
      ("updated_at", opt_value VDate (product_updated_at p)) ].

Definition listing_type_literal : list string :=
  ["fixed_price"; "auction"; "make_offer"].

Definition listing_status_literal : list string :=
  ["active"; "sold"; "paused"; "ended"].

(** Collection ["listing"]. *)
Record Listing := mkListing {
  listing_seller_id : string;
  listing_product_id : string;
  listing_price : float;
  listing_listing_type : string;
  listing_currency : string;
  listing_status : string;
  listing_created_at : option Z;
  listing_updated_at : option Z
}.

(** [Listing(seller_id=..., product_id=..., price=..., listing_type=...)]:
    the other fields take their defaults; the arguments are validated. *)
Definition Listing_new (seller_id product_id : string) (price : float)
    (listing_type : string) : result Listing :=
  if float_ge0 price && in_literal listing_type listing_type_literal
  then inr (mkListing seller_id product_id price listing_type "USD" "active" None None)
  else inl (ValidationError "Listing").

Definition Listing_dump (l : Listing) : dict :=
  {[ "seller_id" := VStr (listing_seller_id l);
     "product_id" := VStr (listing_product_id l);
     "price" := VFloat (listing_price l);
     "listing_type" := VStr (listing_listing_type l);
     "currency" := VStr (listing_currency l);
     "status" := VStr (listing_status l);
     "created_at" := opt_value VDate (listing_created_at l);
     "updated_at" := opt_value VDate (listing_updated_at l) ]}.

Definition offer_status_literal : list string :=
  ["pending"; "accepted"; "rejected"; "countered"; "expired"; "withdrawn"].

(** Collection ["offer"]. *)
Record Offer := mkOffer {
  offer_buyer_id : string;
  offer_listing_id : string;
  offer_offer_price : float;
  offer_currency : string;
  offer_status : string;
  offer_created_at : option Z;
  offer_updated_at : option Z
}.

(** [Offer(buyer_id=..., listing_id=..., offer_price=...)] *)
Definition Offer_new (buyer_id listing_id : string) (offer_price : float)
    : result Offer :=
  if float_ge0 offer_price
  then inr (mkOffer buyer_id listing_id offer_price "USD" "pending" None None)
  else inl (ValidationError "Offer").

Definition Offer_dump (o : Offer) : dict :=
  {[ "buyer_id" := VStr (offer_buyer_id o);
     "listing_id" := VStr (offer_listing_id o);
     "offer_price" := VFloat (offer_offer_price o);
     "currency" := VStr (offer_currency o);
     "status" := VStr (offer_status o);
     "created_at" := opt_value VDate (offer_created_at o);
     "updated_at" := opt_value VDate (offer_updated_at o) ]}.

Definition shipping_option_literal : list string :=
  ["standard"; "express"; "store_pickup"; "dropship"].

Definition order_status_literal : list string :=
  ["created"; "paid"; "shipped"; "delivered"; "refunded"; "cancelled"].

Definition escrow_status_literal : list string :=
  ["held"; "released"; "refunded"].

(** Collection ["order"]. *)
Record Order := mkOrder {
  order_buyer_id : string;
  order_listing_id : string;
  order_amount : float;
  order_currency : string;
  order_payment_method : gmap string string;
  order_shipping_option : string;
  order_status : string;
  order_escrow_status : string;
  order_created_at : option Z;
  order_updated_at : option Z
}.

(** [Order(buyer_id=..., listing_id=..., amount=..., currency=...,
    payment_method=..., shipping_option=...)].  The currency is whatever
    the stored listing holds, so it is validated as a value: a string of
    three characters. *)
Definition Order_new (buyer_id listing_id : string) (amount : float)
    (currency : value) (payment_method : gmap string string)
    (shipping_option : string) : result Order :=
  match currency with
  | VStr cur =>
    if float_ge0 amount
       && (String.length cur =? 3)%nat
       && in_literal shipping_option shipping_option_literal
    then inr (mkOrder buyer_id listing_id amount cur payment_method
                shipping_option "created" "held" None None)
    else inl (ValidationError "Order")
  | _ => inl (ValidationError "Order")
  end.

Definition Order_dump (o : Order) : dict :=
  {[ "buyer_id" := VStr (order_buyer_id o);
     "listing_id" := VStr (order_listing_id o);
     "amount" := VFloat (order_amount o);
     "currency" := VStr (order_currency o);
     "payment_method" := VDict (VStr <$> order_payment_method o);
     "shipping_option" := VStr (order_shipping_option o);
     "status" := VStr (order_status o);
     "escrow_status" := VStr (order_escrow_status o);
     "created_at" := opt_value VDate (order_created_at o);
     "updated_at" := opt_value VDate (order_updated_at o) ]}.

(** ** Request bodies of main.py *)

Record ListingCreate := mkListingCreate {
  lc_seller_id : string;
  lc_product : Product;
  lc_price : float;
  lc_listing_type : string
}.

(** What the framework checks before [create_listing] runs: the nested
    product; [listing_type] is any string here. *)
Definition ListingCreate_valid (p : ListingCreate) : bool :=
  Product_valid (lc_product p).

Record OfferCreate := mkOfferCreate {
  oc_buyer_id : string;
  oc_listing_id : string;
  oc_offer_price : float
}.

Record CheckoutRequest := mkCheckoutRequest {
  co_cart_id : option string;
  co_listing_id : string;
  co_buyer_id : string;
  co_payment_method : dict;
  co_shipping_option : string
}.

Record ProductQuery := mkProductQuery {
  pq_q : option string;
  pq_brand : option string;
  pq_size : option string;
  pq_condition : option string;
  pq_page : Z;
  pq_per_page : Z
}.

(** [page: Query(1, ge=1)], [per_page: Query(12, ge=1, le=100)] *)
Definition ProductQuery_valid (a : ProductQuery) : bool :=
  (1 <=? pq_page a)%Z && (1 <=? pq_per_page a)%Z && (pq_per_page a <=? 100)%Z.

(** ** What the embedding leaves to its environment

    Parts of the Python runtime and of the database server that the
    handlers call but whose results no property below depends on. *)
Record Env := mkEnv {
  (** the ObjectId the driver generates for the next insert *)
  new_oid : Store -> ObjectId;
  (** [str(v)] for a value that is not a string, an ObjectId or a URL *)
  py_repr : value -> string;
  (** [float(v)] for a value that is not already a float *)
  py_float_conv : value -> result float;
  (** the BSON comparison order used by [sort] *)
  bson_leb : value -> value -> bool
}.

Section Marketplace.

Context (env : Env).

(** [str(v)] *)
Definition py_str (v : value) : string :=
  match v with
  | VStr s => s
  | VOid o => oid_hex o
  | VUrl u => u
  | _ => py_repr env v
  end.

(** ** Helpers of main.py *)

(** One pass of the loop of [serialize_doc] over a top-level value: an
    ObjectId becomes its string, a list has its ObjectId elements replaced,
    a dict has its ObjectId values replaced. *)
Definition stringify_oid (x : value) : value :=
  match x with VOid o => VStr (py_str (VOid o)) | _ => x end.

Definition serialize_field (v : value) : value :=
  match v with
  | VOid o => VStr (py_str (VOid o))
  | VList l => VList (stringify_oid <$> l)
  | VDict d => VDict (stringify_oid <$> d)
  | _ => v
  end.

Definition serialize_doc (doc : dict) : dict :=
  if negb (py_truthy (VDict doc)) then doc
  else
    let _id := default VNone (doc !! "_id") in
    let doc := delete "_id" doc in
    let doc :=
      match _id with
      | VNone => doc
      | _ => <["id" := VStr (py_str _id)]> doc
      end in
    serialize_field <$> doc.

(** [float(v)] *)
Definition py_float (v : value) : result float :=
  match v with
  | VFloat f => inr f
  | _ => py_float_conv env v
  end.

(** ** database.py

    The module is not part of the sources at hand; [main.py] imports [db]
    and [create_document] from it. *)

(** Modelled from the spec: [create_document] of the missing module
    [database], the gateway's [insert(collection, document) -> generatedId].
    The document is stored under a generated identifier, whose text is
    returned.  The store is the one [main.py] reads with [find_one] and
    writes with [update_one], a collection of the driver: its insert
    encodes the document first, and a document the encoder refuses is not
    stored. *)
Definition create_document (collection_name : string) (data : dict) : M string :=
  fun st =>
    match bson_encode data with
    | inl e => (st, inl e)
    | inr _ =>
      let oid := new_oid env st in
      (insert_one collection_name oid data st, inr (oid_hex oid))
    end.

(** [if db is None: raise HTTPException(500, ...)] in front of a handler
    body that runs on the configured database. *)
Definition with_db {A : Type} (body : M A) (db : option Store)
    : option Store * result A :=
  match db with
  | None => (None, inl (HTTPException 500 "Database not configured"))
  | Some st => let '(st', r) := body st in (Some st', r)
  end.

(** ** Products *)

Definition sort_key (field : string) (d : Document) : value :=
  default VNone (to_dict d !! field).

(** [sort(field, -1)]: a stable insertion sort, largest key first. *)
Fixpoint insert_desc (field : string) (d : Document) (l : list Document)
    : list Document :=
  match l with
  | [] => [d]
  | x :: r =>
    if bson_leb env (sort_key field x) (sort_key field d)
    then d :: x :: r
    else x :: insert_desc field d r
  end.

Definition sort_desc (field : string) (l : list Document) : list Document :=
  foldr (insert_desc field) [] l.

(** [db[name].find(f).sort(field, -1).skip(n).limit(m)], read to its end. *)
Definition find_sorted (name : string) (f : list clause) (field : string)
    (n m : Z) : M (list dict) :=
  fun st =>
    match compile_filter f with
    | inl e => (st, inl e)
    | inr k =>
      let hits := sort_desc field (List.filter (matches k) (coll st name)) in
      (st, inr (to_dict <$> take (Z.to_nat m) (drop (Z.to_nat n) hits)))
    end.

Definition str_truthy (o : option string) : bool :=
  match o with Some s => negb (str_eqb s "") | None => false end.

Definition the_str (o : option string) : string := default "" o.

(** The filter [list_products] builds from its parameters. *)
Definition filter_q (a : ProductQuery) : list clause :=
  (if str_truthy (pq_q a)
   then [Or [ (["title"], CRegex (the_str (pq_q a)) "i");
              (["brand"], CRegex (the_str (pq_q a)) "i");
              (["model"], CRegex (the_str (pq_q a)) "i") ]]
   else [])
  ++ (if str_truthy (pq_brand a)
      then [Field ["brand"] (CRegex ("^" +:+ the_str (pq_brand a) +:+ "$") "i")]
      else [])
  ++ (if str_truthy (pq_condition a)
      then [Field ["condition"] (CEq (VStr (the_str (pq_condition a))))]
      else [])
  ++ (if str_truthy (pq_size a)
      then [Field ["size_variants"; "size"] (CEq (VStr (the_str (pq_size a))))]
      else []).

Definition list_products (a : ProductQuery) : option Store -> option Store * result dict :=
  with_db (
    total ← count_documents "product" (filter_q a);
    cursor ← find_sorted "product" (filter_q a) "created_at"
               ((pq_page a - 1) * pq_per_page a) (pq_per_page a);
    let items := (fun d => VDict (serialize_doc d)) <$> cursor in
    mret ({[ "total" := VInt total;
             "page" := VInt (pq_page a);
             "per_page" := VInt (pq_per_page a);
             "items" := VList items ]} : dict)).

(** ** Listings *)

Definition optdict_truthy (o : option dict) : bool :=
  match o with Some d => py_truthy (VDict d) | None => false end.

Definition create_listing (payload : ListingCreate)
    : option Store -> option Store * result dict :=
  with_db (
    let product_data := Product_dump (lc_product payload) in
    existing ←
      (if opt_truthy (product_data !! "slug")
       then slug ← lift (getitem product_data "slug");
            find_one "product" [Field ["slug"] (CEq slug)]
       else mret None);
    product_id ←
      (if optdict_truthy existing
       then let existing := default ∅ existing in
            if bool_decide (is_Some (existing !! "._id"))
            then v ← lift (getitem existing "._id"); mret (py_str v)
            else v ← lift (getitem existing "_id"); mret (py_str v)
       else create_document "product" product_data);
    listing ← lift (Listing_new (lc_seller_id payload) product_id
                      (lc_price payload) (lc_listing_type payload));
    listing_id ← create_document "listing" (Listing_dump listing);
    mret ({[ "status" := VStr "listing_created";
             "listing_id" := VStr listing_id;
             "product_id" := VStr product_id ]} : dict)).

(** ** Offers *)

(** The lookup both [create_offer] and [checkout] start with. *)
Definition find_listing (listing_id : string) : M (option dict) :=
  if ObjectId_is_valid listing_id
  then find_one "listing" [Field ["_id"] (CEq (VOid (ObjectId_of_str listing_id)))]
  else mret None.

Definition create_offer (payload : OfferCreate)
    : option Store -> option Store * result dict :=
  with_db (
    listing ← find_listing (oc_listing_id payload);
    if negb (optdict_truthy listing)
    then raise (HTTPException 404 "Listing not found")
    else
      offer ← lift (Offer_new (oc_buyer_id payload) (oc_listing_id payload)
                      (oc_offer_price payload));
      offer_id ← create_document "offer" (Offer_dump offer);
      mret ({[ "status" := VStr "offer_created";
               "offer_id" := VStr offer_id ]} : dict)).

(** ** Checkout / Orders *)

Definition checkout (payload : CheckoutRequest)
    : option Store -> option Store * result dict :=
  with_db (
    listing ← find_listing (co_listing_id payload);
    if negb (optdict_truthy listing)
    then raise (HTTPException 404 "Listing not found")
    else
      let listing := default ∅ listing in
      if opt_truthy (listing !! "status")
         && negb (value_is_str (default VNone (listing !! "status")) "active")
      then raise (HTTPException 400 "Listing not available")
      else
        _id ← lift (getitem listing "_id");
        price ← lift (getitem listing "price");
        amount ← lift (py_float price);
        order ← lift (Order_new (co_buyer_id payload) (py_str _id) amount
                        (default (VStr "USD") (listing !! "currency"))
                        (py_str <$> co_payment_method payload)
                        (co_shipping_option payload));
        order_id ← create_document "order" (Order_dump order);
        _id ← lift (getitem listing "_id");
        update_one "listing" [Field ["_id"] (CEq _id)]
          {[ "status" := VStr "sold" ]};;
        mret ({[ "status" := VStr "order_confirmation";
                 "order_id" := VStr order_id ]} : dict)).

(** ** The routes, with the validation the framework runs first *)

Inductive request : Type :=
| GET_products (a : ProductQuery)
| POST_listings (payload : ListingCreate)
| POST_offers (payload : OfferCreate)
| POST_checkout (payload : CheckoutRequest).

Definition serve (r : request) (db : option Store) : option Store * result dict :=
  match r with
  | GET_products a =>
    if ProductQuery_valid a then list_products a db
    else (db, inl RequestValidationError)
  | POST_listings payload =>
    if ListingCreate_valid payload then create_listing payload db
    else (db, inl RequestValidationError)
  | POST_offers payload => create_offer payload db
  | POST_checkout payload => checkout payload db
  end.

(** The database after a run of requests, one after the other. *)
Definition serve_all (rs : list request) (db : option Store) : option Store :=
  foldl (fun db r => (serve r db).1) db rs.

End Marketplace.

(** ** Reading the database *)

Definition has_id (o : ObjectId) (d : Document) : bool :=
  bool_decide (doc_id d = o).

(** [resolves st listing_id d]: the text is a well-formed identifier and
    [d] is the stored listing it names. *)
Definition resolves (st : Store) (listing_id : string) (d : Document) : Prop :=
  ObjectId_is_valid listing_id = true
  /\ find_first (has_id (ObjectId_of_str listing_id)) (coll st "listing") = Some d.

(** The listing as [checkout] leaves it. *)
Definition mark_sold (d : Document) : Document :=
  set_fields {[ "status" := VStr "sold" ]} d.

(** No key of the dictionary holds a NUL character. *)
Definition keys_ok {A : Type} (d : gmap string A) : bool :=
  map_fold (fun k _ acc => no_nul k && acc) true d.

(** A product with an image or a video. *)
Definition Product_pictured (p : Product) : bool :=
  match product_images p, product_gallery_video p with
  | [], None => false
  | _, _ => true
  end.

(** The integers of a product are within 64 bits. *)
Definition Product_ints_ok (p : Product) : bool :=
  int64 (product_release_year p)
  && forallb (fun v => int64 (sv_inventory_quantity v)) (product_size_variants p)
  && int64 (product_shipping_weight_grams p)
  && int64 (dim_length (product_dimensions_mm p))
  && int64 (dim_width (product_dimensions_mm p))
  && int64 (dim_height (product_dimensions_mm p)).

(** A product whose dump the encoder accepts: it has no image and no
    video, and its integers are within 64 bits. *)
Definition Product_storable (p : Product) : bool :=
  negb (Product_pictured p) && Product_ints_ok p.

(** ** Vocabulary of the properties *)

Section Vocabulary.

Context (env : Env).

(** The database after a successful checkout of the stored listing [d]
    with the order [order]. *)
Definition checked_out (d : Document) (order : Order) (st : Store) : Store :=
  let st1 := insert_one "order" (new_oid env st) (Order_dump order) st in
  <["listing" := update_first (has_id (doc_id d)) mark_sold (coll st1 "listing")]> st1.

Definition order_confirmation (st : Store) : dict :=
  {[ "status" := VStr "order_confirmation";
     "order_id" := VStr (oid_hex (new_oid env st)) ]}.

(** The two ways a handler changes the database: it inserts a document,
    or it marks the first listing that some filter selects as sold. *)
Inductive write_step : Store -> Store -> Prop :=
| step_insert (name : string) (oid : ObjectId) (data : dict) (st : Store) :
    write_step st (insert_one name oid data st)
| step_sold (q : Document -> bool) (st : Store) :
    write_step st
      (<["listing" := update_first q mark_sold (coll st "listing")]> st).

Definition writes : Store -> Store -> Prop := rtc write_step.

(** A computation that changes the database by such steps only. *)
Definition only_writes {A : Type} (m : M A) : Prop :=
  forall st, exists st' r, m st = (st', r) /\ writes st st'.

(** The listing that the identifier [o] names is stored with status "sold". *)
Definition sold_in (st : Store) (o : ObjectId) : Prop :=
  exists d, find_first (has_id o) (coll st "listing") = Some d
            /\ to_dict d !! "status" = Some (VStr "sold").

(** The product filter of [create_listing]: the stored slug is the text,
    or an array that holds it. *)
Definition has_slug (slug : string) (d : Document) : bool :=
  match to_dict d !! "slug" with
  | Some y => holds (KEq (VStr slug)) y
  | None => false
  end.

(** The second half of [create_listing]: validate the listing, store it. *)
Definition list_product (payload : ListingCreate) (product_id : string)
    (st : Store) : option Store * result dict :=
  match Listing_new (lc_seller_id payload) product_id (lc_price payload)
          (lc_listing_type payload) with
  | inl e => (Some st, inl e)
  | inr listing =>
    (Some (insert_one "listing" (new_oid env st) (Listing_dump listing) st),
     inr {[ "status" := VStr "listing_created";
            "listing_id" := VStr (oid_hex (new_oid env st));
            "product_id" := VStr product_id ]})
  end.

(** A text that PCRE reads as itself: no character of the regex syntax,
    no NUL. *)
Definition plain (cs : list ascii) : bool := forallb (fun c => negb (is_meta c)) cs.

(** [ci_eqb_nl b y]: [y] is [b] up to ASCII case, with at most one newline
    after it (the [$] of PCRE also holds before a final newline). *)
Fixpoint ci_eqb_nl (b y : list ascii) : bool :=
  match b, y with
  | [], rest => at_end rest
  | c :: b', x :: y' => ascii_eqb (ascii_lower c) (ascii_lower x) && ci_eqb_nl b' y'
  | _ :: _, [] => false
  end.

Definition literal (c : ascii) : ritem := ROne (RChar c).

(** The stored brand is the text up to case and a final newline, or an
    array that holds such a text. *)
Definition brand_is (brand : string) (d : Document) : bool :=
  let same (x : value) :=
    match x with
    | VStr y => ci_eqb_nl (list_ascii_of_string brand) (list_ascii_of_string y)
    | _ => false
    end in
  match to_dict d !! "brand" with
  | Some (VList l) => existsb same l
  | Some x => same x
  | None => false
  end.

End Vocabulary.

(** ** A concrete environment and concrete data *)

Definition hex_digit (n : N) : ascii :=
  ascii_of_N (if (n <? 10)%N then 48 + n else 87 + n).

Fixpoint hex_of_N (width : nat) (n : N) : string :=
  match width with
  | O => ""
  | S w => hex_of_N w (n / 16) +:+ String (hex_digit (n mod 16)) ""
  end.

Definition stored_count (st : Store) : nat :=
  map_fold (fun _ l acc => (length l + acc)%nat) 0%nat st.

(** Identifiers numbered by the documents stored so far; no rendering of
    other values, no conversion to float, every key equal in the order. *)
Definition counting_env : Env :=
  mkEnv (fun st => mkOid (hex_of_N 24 (N.of_nat (stored_count st))))
        (fun _ => "")
        (fun _ => inl TypeError)
        (fun _ _ => true).

Definition oid_a : ObjectId := mkOid "aaaaaaaaaaaaaaaaaaaaaaaa".
Definition oid_b : ObjectId := mkOid "bbbbbbbbbbbbbbbbbbbbbbbb".


(** A product without pictures. *)
Definition air_max : Product :=
  mkProduct "Air Max 1" "air-max-1" "Nike" "Air Max" 1987 "new"
    [mkSizeVariant "42" "AM1-42" 120 "USD" 3]
    [] None "A running shoe" None None
    ["running"] true "seller-1" 900 (mkDimensions 330 210 120) None None.

(** The product with one more image. *)
Definition with_image (u : string) (p : Product) : Product :=
  mkProduct (product_title p) (product_slug p) (product_brand p) (product_model p)
    (product_release_year p) (product_condition p) (product_size_variants p)
    (u :: product_images p) (product_gallery_video p) (product_description p)
    (product_materials p) (product_colorway p) (product_tags p)
    (product_authenticity_certificate p) (product_seller_id p)
    (product_shipping_weight_grams p) (product_dimensions_mm p)
    (product_created_at p) (product_updated_at p).

Definition air_max_pictured : Product :=
  with_image "https://img.example/am1.png" air_max.

Definition no_slug (p : Product) : Product :=
  mkProduct (product_title p) "" (product_brand p) (product_model p)
    (product_release_year p) (product_condition p) (product_size_variants p)
    (product_images p) (product_gallery_video p) (product_description p)
    (product_materials p) (product_colorway p) (product_tags p)
    (product_authenticity_certificate p) (product_seller_id p)
    (product_shipping_weight_grams p) (product_dimensions_mm p)
    (product_created_at p) (product_updated_at p).

(** One stored listing with the given currency and status. *)
Definition a_listing (currency status : string) : Document :=
  mkDoc oid_a
    (Listing_dump (mkListing "seller-1" "cccccccccccccccccccccccc" 120
                     "fixed_price" currency status None None)).

Definition listing_store (currency status : string) : Store :=
  {[ "listing" := [a_listing currency status] ]}.

(** One stored product. *)
Definition product_store (p : Product) : Store :=
  {[ "product" := [mkDoc oid_b (Product_dump p)] ]}.

Definition a_checkout (listing_id shipping_option : string) : CheckoutRequest :=
  mkCheckoutRequest None listing_id "buyer-1" {[ "type" := VStr "card" ]}
    shipping_option.

Definition brand_query (brand : string) : ProductQuery :=
  mkProductQuery None (Some brand) None None 1 12.

(** The database and the response of a first, successful checkout. *)
Definition first_checkout : option Store * result dict :=
  checkout counting_env (a_checkout "aaaaaaaaaaaaaaaaaaaaaaaa" "standard")
    (Some (listing_store "USD" "active")).

Definition sold_store : Store := default ∅ first_checkout.1.

Definition requests_between : list request :=
  [ POST_offers (mkOfferCreate "buyer-2" "aaaaaaaaaaaaaaaaaaaaaaaa" 100);
    POST_listings (mkListingCreate "seller-2" air_max 80 "auction");
    GET_products (brand_query "nike") ].

(** Reading the outcome of a handler: a field of its response, and a
    collection of the database it leaves. *)
Definition response_field (k : string) (out : option Store * result dict)
    : option value :=
  match out.2 with inr resp => resp !! k | inl _ => None end.

Definition stored (name : string) (out : option Store * result dict)
    : list Document :=
  coll (default ∅ out.1) name.

(** ** More of main.py *)


(** ** Vocabulary of the further properties *)

(** A value that is an identifier, or holds none at any depth. *)
Definition id_or_free (x : value) : bool := is_oid x || raw_id_free x.

(** [one_level v]: the identifiers of [v] are [v] itself, direct elements
    of the list [v], or direct values of the dict [v]. *)
Definition one_level (v : value) : bool :=
  match v with
  | VList l => forallb id_or_free l
  | VDict d => map_fold (fun _ x acc => id_or_free x && acc) true d
  | _ => true
  end.

(** The same request with another text for the listing identifier. *)
Definition with_listing_id (listing_id : string) (payload : CheckoutRequest)
    : CheckoutRequest :=
  mkCheckoutRequest (co_cart_id payload) listing_id (co_buyer_id payload)
    (co_payment_method payload) (co_shipping_option payload).

(** A stored listing is kept as it is, or marked sold. *)
Definition kept_or_sold (d d' : Document) : Prop := d' = d \/ d' = mark_sold d.

(** [listings_evolve l l']: every listing of [l] is in [l'] at its place,
    kept or marked sold; [l'] may hold more listings after them. *)
Definition listings_evolve (l l' : list Document) : Prop :=
  exists l1 more, l' = l1 ++ more /\ Forall2 kept_or_sold l l1.

(** The status of a stored listing is "active" or "sold". *)
Definition active_or_sold (d : Document) : Prop :=
  doc_body d !! "status" = Some (VStr "active")
  \/ doc_body d !! "status" = Some (VStr "sold").

(** The steps by which the four routes change the database: a document
    is appended to a collection other than the listings, a listing built by
    the Listing schema with its default status is appended, or the first
    listing some filter selects is marked sold. *)
Inductive api_step : Store -> Store -> Prop :=
| api_insert (name : string) (oid : ObjectId) (data : dict) (st : Store) :
    name ≠ "listing" -> api_step st (insert_one name oid data st)
| api_list (oid : ObjectId) (l : Listing) (st : Store) :
    listing_status l = "active" ->
    api_step st (insert_one "listing" oid (Listing_dump l) st)
| api_sold (q : Document -> bool) (st : Store) :
    api_step st
      (<["listing" := update_first q mark_sold (coll st "listing")]> st).

(** A computation that changes the database by such steps only. *)
Definition api_only {A : Type} (m : M A) : Prop :=
  forall st, exists st' r, m st = (st', r) /\ rtc api_step st st'.

(** The products as the database holds them when each was written from
    the Product schema. *)
Definition stored_products (ps : list (ObjectId * Product)) : list Document :=
  (fun op => mkDoc op.1 (Product_dump op.2)) <$> ps.

(** [cs] starts the text, up to ASCII case. *)
Fixpoint ci_prefix (cs text : list ascii) : bool :=
  match cs, text with
  | [], _ => true
  | c :: cs', x :: text' =>
    ascii_eqb (ascii_lower c) (ascii_lower x) && ci_prefix cs' text'
  | _ :: _, [] => false
  end.

(** [cs] occurs in the text, up to ASCII case. *)
Fixpoint ci_contains (cs text : list ascii) : bool :=
  ci_prefix cs text
  || match text with
     | _ :: text' => ci_contains cs text'
     | [] => false
     end.

Definition str_contains_ci (needle text : string) : bool :=
  ci_contains (list_ascii_of_string needle) (list_ascii_of_string text).

(** A text of ASCII characters only.  The server's PCRE reads a text as
    UTF-8 and folds the case of the letters outside ASCII by the rules of
    Unicode; on ASCII texts it works character by character, as
    [regex_search] does. *)
Definition ascii_text (s : string) : bool :=
  str_forall (fun c => (ascii_code c <? 128)%N) s.

(** The fields of a product that [q] and [brand] are matched against. *)
Definition ascii_product (p : Product) : bool :=
  ascii_text (product_title p) && ascii_text (product_brand p)
  && ascii_text (product_model p).

(** What the parameters of [list_products] ask of a product: [q] occurs
    in the title, the brand or the model; the brand is [brand]; the
    condition is [condition]; some size variant has the size [size].  A
    parameter that is absent or empty asks nothing. *)
Definition selected (a : ProductQuery) (p : Product) : bool :=
  (if str_truthy (pq_q a)
   then str_contains_ci (the_str (pq_q a)) (product_title p)
        || str_contains_ci (the_str (pq_q a)) (product_brand p)
        || str_contains_ci (the_str (pq_q a)) (product_model p)
   else true)
  && (if str_truthy (pq_brand a)
      then ci_eqb_nl (list_ascii_of_string (the_str (pq_brand a)))
             (list_ascii_of_string (product_brand p))
      else true)
  && (if str_truthy (pq_condition a)
      then str_eqb (product_condition p) (the_str (pq_condition a))
      else true)
  && (if str_truthy (pq_size a)
      then existsb (fun v => str_eqb (sv_size v) (the_str (pq_size a)))
             (product_size_variants p)
      else true).

(** The filter of [list_products] as the server compiles it, for texts
    without regex syntax. *)
Definition compiled_filter_q (a : ProductQuery) : list cclause :=
  (if str_truthy (pq_q a)
   then [KOr [ (["title"], KRegex true (literal <$> list_ascii_of_string (the_str (pq_q a))));
               (["brand"], KRegex true (literal <$> list_ascii_of_string (the_str (pq_q a))));
               (["model"], KRegex true (literal <$> list_ascii_of_string (the_str (pq_q a)))) ]]
   else [])
  ++ (if str_truthy (pq_brand a)
      then [KField ["brand"]
              (KRegex true (RBol :: (literal <$> list_ascii_of_string (the_str (pq_brand a)))
                                  ++ [REol]))]
      else [])
  ++ (if str_truthy (pq_condition a)
      then [KField ["condition"] (KEq (VStr (the_str (pq_condition a))))]
      else [])
  ++ (if str_truthy (pq_size a)
      then [KField ["size_variants"; "size"] (KEq (VStr (the_str (pq_size a))))]
      else []).

Section MoreVocabulary.

Context (env : Env).

(** The first half of [create_listing]: the product is looked up by its
    slug when the slug is not empty, and inserted when none is found; the
    result is the database and the text of the product's identifier. *)
Definition upsert_product (payload : ListingCreate) (st : Store)
    : Store * result string :=
  let product := lc_product payload in
  let inserted := create_document env "product" (Product_dump product) st in
  if str_eqb (product_slug product) "" then inserted
  else
    match find_first (has_slug (product_slug product)) (coll st "product") with
    | None => inserted
    | Some existing =>
      match to_dict existing !! "._id" with
      | Some v => (st, inr (py_str env v))
      | None => (st, inr (oid_hex (doc_id existing)))
      end
    end.

(** The listing that [create_listing] builds from a payload and the text
    of a product identifier. *)
Definition new_listing (payload : ListingCreate) (product_id : string) : Listing :=
  mkListing (lc_seller_id payload) product_id (lc_price payload)
    (lc_listing_type payload) "USD" "active" None None.

End MoreVocabulary.

(** ** More concrete data *)

(** [counting_env] with the [str] of integers, booleans and [None]. *)
Definition printing_env : Env :=
  mkEnv (new_oid counting_env)
        (fun v =>
           match v with
           | VInt z => pretty z
           | VBool true => "True"
           | VBool false => "False"
           | VNone => "None"
           | _ => ""
           end)
        (py_float_conv counting_env)
        (bson_leb counting_env).

Definition store_of (out : option Store * result dict) : Store := default ∅ out.1.

Definition response_of (out : option Store * result dict) : dict :=
  match out.2 with inr resp => resp | inl _ => ∅ end.

Definition shallow_doc : dict :=
  {[ "_id" := VOid oid_a;
     "owner" := VOid oid_b;
     "watchers" := VList [VOid oid_b; VStr "guest"] ]}.

Definition card_checkout : CheckoutRequest :=
  mkCheckoutRequest None "aaaaaaaaaaaaaaaaaaaaaaaa" "buyer-1"
    {[ "type" := VStr "card"; "last4" := VInt 4242; "saved" := VBool true ]}
    "express".

Definition card_checkout_out : option Store * result dict :=
  checkout printing_env card_checkout (Some (listing_store "USD" "active")).

Definition air_max_listing : ListingCreate :=
  mkListingCreate "seller-1" air_max 120 "auction".

Definition air_max_listing_out : option Store * result dict :=
  create_listing counting_env air_max_listing (Some ∅).



Definition air_max_pictured_listing : ListingCreate :=
  mkListingCreate "seller-1" air_max_pictured 120 "auction".



(** A checkout whose payment method has a key with a NUL character. *)
Definition nul_checkout : CheckoutRequest :=
  mkCheckoutRequest None "aaaaaaaaaaaaaaaaaaaaaaaa" "buyer-1"
    {[ String (ascii_of_N 0) "type" := VStr "card" ]} "standard".

Definition full_query : ProductQuery :=
  mkProductQuery (Some "max") (Some "nike") (Some "42") (Some "new") 1 12.

Definition empty_query : ProductQuery :=
  mkProductQuery None (Some "") (Some "") None 1 12.

(** * Properties *)

Section Properties.

Context (env : Env).

(** ** Dictionaries and documents *)

Lemma to_dict_id (d : Document) : to_dict d !! "_id" = Some (VOid (doc_id d)).
Proof. unfold to_dict. apply lookup_insert_eq. Qed.

Lemma to_dict_other (d : Document) (k : string) :
  k ≠ "_id" -> to_dict d !! k = doc_body d !! k.
Proof. intros Hk. unfold to_dict. by rewrite lookup_insert_ne. Qed.

Lemma dict_truthy_lookup (d : dict) (k : string) (v : value) :
  d !! k = Some v -> py_truthy (VDict d) = true.
Proof.
  intros Hk. simpl. destruct (map_to_list d) eqn:E; [|done].
  apply map_to_list_empty_iff in E. subst d. by rewrite lookup_empty in Hk.
Qed.

Lemma dict_falsy_empty (d : dict) : py_truthy (VDict d) = false -> d = ∅.
Proof.
  simpl. destruct (map_to_list d) eqn:E; [|done].
  intros _. by apply map_to_list_empty_iff.
Qed.

Lemma to_dict_truthy (d : Document) : optdict_truthy (Some (to_dict d)) = true.
Proof. simpl. eapply dict_truthy_lookup, to_dict_id. Qed.

Lemma stringify_oid_not_oid (x : value) : is_oid (stringify_oid env x) = false.
Proof. by destruct x. Qed.

(** ** The encoder of the driver *)

Lemma map_fold_and {A : Type} (p : string -> A -> bool) (d : gmap string A) :
  map_fold (fun k x acc => p k x && acc) true d = true
  <-> forall j x, d !! j = Some x -> p j x = true.
Proof.
  apply (map_fold_weak_ind
           (fun r (m : gmap string A) =>
              r = true <-> forall j x, m !! j = Some x -> p j x = true)).
  - split; [|done]. intros _ j x. by rewrite lookup_empty.
  - intros i x m r Hi IH. rewrite andb_true_iff, IH. split.
    + intros [Hx Hm] j y [[-> <-]|[_ Hj]]%lookup_insert_Some; [done|]. by apply (Hm j).
    + intros H. split.
      * apply (H i). by rewrite lookup_insert_eq.
      * intros j y Hj. apply (H j). rewrite lookup_insert_ne; [done|].
        intros ->. by rewrite Hi in Hj.
Qed.

Lemma keys_ok_lookup {A : Type} (d : gmap string A) :
  keys_ok d = true <-> forall k x, d !! k = Some x -> no_nul k = true.
Proof. apply (map_fold_and (fun k _ => no_nul k)). Qed.

Lemma keys_ok_fmap {A B : Type} (f : A -> B) (d : gmap string A) :
  keys_ok (f <$> d) = keys_ok d.
Proof.
  apply eq_true_iff_eq. rewrite !keys_ok_lookup. split; intros H k x Hk.
  - apply (H k (f x)). by rewrite lookup_fmap, Hk.
  - rewrite lookup_fmap in Hk. destruct (d !! k) as [y|] eqn:E; [|done].
    by apply (H k y).
Qed.

Lemma bson_types_ok_dict (d : dict) :
  bson_types_ok (VDict d) = true
  <-> forall k x, d !! k = Some x -> no_nul k = true /\ bson_types_ok x = true.
Proof.
  cbn [bson_types_ok].
  rewrite (map_fold_and (fun k x => no_nul k && bson_types_ok x) d).
  split; intros H k x Hk; [apply andb_true_iff|apply andb_true_iff]; by apply H.
Qed.

Lemma bson_ints_ok_dict (d : dict) :
  bson_ints_ok (VDict d) = true
  <-> forall k x, d !! k = Some x -> bson_ints_ok x = true.
Proof. apply (map_fold_and (fun _ x => bson_ints_ok x) d). Qed.

Lemma bson_encode_ok (data : dict) :
  bson_encode data = inr tt
  <-> bson_types_ok (VDict data) = true /\ bson_ints_ok (VDict data) = true.
Proof.
  unfold bson_encode.
  destruct (bson_types_ok (VDict data)), (bson_ints_ok (VDict data));
    split; try done; by intros [? ?].
Qed.

Lemma create_document_stored (name : string) (data : dict) (st : Store) :
  bson_encode data = inr tt ->
  create_document env name data st
  = (insert_one name (new_oid env st) data st, inr (oid_hex (new_oid env st))).
Proof. intros H. unfold create_document. by rewrite H. Qed.

Lemma create_document_refused (name : string) (data : dict) (st : Store)
    (e : exception) :
  bson_encode data = inl e -> create_document env name data st = (st, inl e).
Proof. intros H. unfold create_document. by rewrite H. Qed.

(** The fields of a dump, one after the other. *)
Ltac dump_fields H :=
  repeat (apply lookup_insert_Some in H as [[<- <-]|[_ H]];
          [unfold opt_value; repeat case_match; done|]);
  first [ apply lookup_singleton_Some in H as [<- <-];
          unfold opt_value; repeat case_match; done
        | by rewrite lookup_empty in H ].

Lemma Listing_dump_encode (l : Listing) : bson_encode (Listing_dump l) = inr tt.
Proof.
  apply bson_encode_ok. split.
  - apply bson_types_ok_dict. intros k x Hk. unfold Listing_dump in Hk. dump_fields Hk.
  - apply bson_ints_ok_dict. intros k x Hk. unfold Listing_dump in Hk. dump_fields Hk.
Qed.

Lemma Offer_dump_encode (o : Offer) : bson_encode (Offer_dump o) = inr tt.
Proof.
  apply bson_encode_ok. split.
  - apply bson_types_ok_dict. intros k x Hk. unfold Offer_dump in Hk. dump_fields Hk.
  - apply bson_ints_ok_dict. intros k x Hk. unfold Offer_dump in Hk. dump_fields Hk.
Qed.

Lemma bson_types_ok_texts (pm : gmap string string) :
  bson_types_ok (VDict (VStr <$> pm)) = keys_ok pm.
Proof.
  apply eq_true_iff_eq. rewrite bson_types_ok_dict, keys_ok_lookup.
  split; intros H k x Hk.
  - apply (H k (VStr x)). by rewrite lookup_fmap, Hk.
  - rewrite lookup_fmap in Hk. destruct (pm !! k) as [y|] eqn:E; simplify_eq/=.
    split; [by apply (H k y)|done].
Qed.

Lemma bson_ints_ok_texts (pm : gmap string string) :
  bson_ints_ok (VDict (VStr <$> pm)) = true.
Proof.
  apply bson_ints_ok_dict. intros k x Hk. rewrite lookup_fmap in Hk.
  destruct (pm !! k); by simplify_eq/=.
Qed.

Lemma Order_dump_ints_ok (o : Order) : bson_ints_ok (VDict (Order_dump o)) = true.
Proof.
  apply bson_ints_ok_dict. intros k x Hk. unfold Order_dump in Hk.
  repeat (apply lookup_insert_Some in Hk as [[<- <-]|[_ Hk]];
          [lazymatch goal with
           | |- bson_ints_ok (VDict (VStr <$> _)) = true => apply bson_ints_ok_texts
           | _ => unfold opt_value; repeat case_match; done
           end|]).
  apply lookup_singleton_Some in Hk as [<- <-].
  unfold opt_value; repeat case_match; done.
Qed.

Lemma Order_dump_types_ok (o : Order) :
  bson_types_ok (VDict (Order_dump o)) = keys_ok (order_payment_method o).
Proof.
  apply eq_true_iff_eq. rewrite bson_types_ok_dict. split.
  - intros H. rewrite <- bson_types_ok_texts.
    refine (proj2 (H "payment_method" (VDict (VStr <$> order_payment_method o)) _)).
    reflexivity.
  - intros H k x Hk. unfold Order_dump in Hk.
    repeat (apply lookup_insert_Some in Hk as [[<- <-]|[_ Hk]];
            [lazymatch goal with
             | |- _ /\ bson_types_ok (VDict (VStr <$> _)) = true =>
                 split; [reflexivity|by rewrite bson_types_ok_texts]
             | _ => unfold opt_value; repeat case_match; done
             end|]).
    apply lookup_singleton_Some in Hk as [<- <-].
    unfold opt_value; repeat case_match; done.
Qed.

(** The encoder refuses an order exactly when a key of its payment method
    holds a NUL character. *)
Lemma Order_dump_encode (o : Order) :
  bson_encode (Order_dump o)
  = if keys_ok (order_payment_method o) then inr tt else inl InvalidDocument.
Proof.
  unfold bson_encode. rewrite Order_dump_types_ok, Order_dump_ints_ok.
  by destruct (keys_ok _).
Qed.

(** ** serialize_doc *)

Lemma serialize_field_shallow (w : value) :
  is_oid (serialize_field env w) = false
  /\ (forall l, serialize_field env w = VList l ->
        forall x, x ∈ l -> is_oid x = false)
  /\ (forall d : dict, serialize_field env w = VDict d ->
        forall j x, d !! j = Some x -> is_oid x = false).
Proof.
  destruct w; simpl; (split; [done|]); split; intros ? Heq; try discriminate.
  - injection Heq as <-. intros x Hx.
    apply list_elem_of_fmap in Hx as (y & -> & _). apply stringify_oid_not_oid.
  - injection Heq as <-. intros j x Hx.
    rewrite lookup_fmap in Hx. destruct (d !! j); simplify_eq/=.
    apply stringify_oid_not_oid.
Qed.

(** [serialize_doc] removes [_id], returns the document's own identifier
    as the string [id], and leaves no raw identifier as a top-level field
    value, as a direct element of a top-level list, or as a direct value of
    a top-level dict.  Identifiers nested more deeply are not visited. *)
Lemma serialize_doc_one_level (doc : dict) :
  serialize_doc env doc !! "_id" = None
  /\ (forall v, doc !! "_id" = Some v -> v ≠ VNone ->
        serialize_doc env doc !! "id" = Some (VStr (py_str env v)))
  /\ (forall k v, serialize_doc env doc !! k = Some v ->
        is_oid v = false
        /\ (forall l, v = VList l -> forall x, x ∈ l -> is_oid x = false)
        /\ (forall d : dict, v = VDict d ->
              forall j x, d !! j = Some x -> is_oid x = false)).
Proof.
  unfold serialize_doc.
  destruct (py_truthy (VDict doc)) eqn:Ht; cbn [negb].
  - split; [|split].
    + rewrite lookup_fmap.
      destruct (default VNone (doc !! "_id"));
        rewrite ?lookup_insert_ne by done; by rewrite lookup_delete_eq.
    + intros v Hv Hne. rewrite Hv. cbn [default].
      rewrite lookup_fmap.
      destruct v; [by destruct Hne|..]; simpl; by rewrite lookup_insert_eq.
    + intros k v Hk. rewrite lookup_fmap in Hk.
      match type of Hk with serialize_field _ <$> ?o = _ => destruct o as [w|] end;
        simplify_eq/=.
      apply serialize_field_shallow.
  - apply dict_falsy_empty in Ht. subst doc.
    split; [|split]; intros; rewrite ?lookup_empty in *; done.
Qed.

(** ** Looking a listing up *)

Lemma find_first_ext (p q : Document -> bool) (l : list Document) :
  (forall d, p d = q d) -> find_first p l = find_first q l.
Proof. intros E. induction l as [|d l IH]; simpl; [done|]. by rewrite E, IH. Qed.

Lemma update_first_ext (p q : Document -> bool) (f : Document -> Document)
    (l : list Document) :
  (forall d, p d = q d) -> update_first p f l = update_first q f l.
Proof. intros E. induction l as [|d l IH]; simpl; [done|]. by rewrite E, IH. Qed.

Lemma find_first_Some (p : Document -> bool) (l : list Document) (d : Document) :
  find_first p l = Some d -> p d = true /\ d ∈ l.
Proof.
  induction l as [|x l IH]; simpl; [done|].
  destruct (p x) eqn:E.
  - intros [= ->]. split; [done|]. apply list_elem_of_here.
  - intros H. destruct (IH H). split; [done|]. by apply list_elem_of_further.
Qed.

Lemma matches_id (o : ObjectId) (d : Document) :
  matches [KField ["_id"] (KEq (VOid o))] d = has_id o d.
Proof.
  unfold matches, clause_holds, field_holds. simpl.
  rewrite to_dict_id. unfold has_id, holds. simpl.
  by rewrite !orb_false_r, andb_true_r.
Qed.

Lemma find_listing_eq (listing_id : string) (st : Store) :
  find_listing listing_id st =
  (st, inr (if ObjectId_is_valid listing_id
            then to_dict <$> find_first (has_id (ObjectId_of_str listing_id))
                               (coll st "listing")
            else None)).
Proof.
  unfold find_listing. destruct (ObjectId_is_valid listing_id); [|done].
  unfold find_one. simpl.
  by rewrite (find_first_ext _ _ _ (matches_id _)).
Qed.

Lemma find_listing_resolves (st : Store) (listing_id : string) (d : Document) :
  resolves st listing_id d -> find_listing listing_id st = (st, inr (Some (to_dict d))).
Proof. intros [Hv Hf]. by rewrite find_listing_eq, Hv, Hf. Qed.

(** ** Offers *)

(** C5: an offer on a listing identifier that is malformed, or that names
    no stored listing, fails with 404 "Listing not found" and writes
    nothing: the database is the one the request found. *)
Theorem create_offer_not_found (st : Store) (payload : OfferCreate) :
  ObjectId_is_valid (oc_listing_id payload) = false
  \/ find_first (has_id (ObjectId_of_str (oc_listing_id payload)))
       (coll st "listing") = None ->
  create_offer env payload (Some st)
  = (Some st, inl (HTTPException 404 "Listing not found")).
Proof.
  intros H. unfold create_offer, with_db, mbind, M_bind.
  rewrite find_listing_eq.
  destruct H as [-> | H]; [done|].
  rewrite H. by destruct (ObjectId_is_valid _).
Qed.

(** ** Checkout *)

Lemma coll_insert_one_eq (name : string) (oid : ObjectId) (data : dict) (st : Store) :
  coll (insert_one name oid data st) name = coll st name ++ [mkDoc oid data].
Proof. unfold insert_one, coll at 1. by rewrite lookup_insert_eq. Qed.

Lemma coll_insert_one_ne (name other : string) (oid : ObjectId) (data : dict)
    (st : Store) :
  name ≠ other -> coll (insert_one name oid data st) other = coll st other.
Proof. intros H. unfold insert_one, coll at 1. by rewrite lookup_insert_ne. Qed.

(** What [checkout] does once its lookup has found the listing [d]. *)
Lemma checkout_resolved (st : Store) (payload : CheckoutRequest) (d : Document) :
  resolves st (co_listing_id payload) d ->
  checkout env payload (Some st) =
  if opt_truthy (to_dict d !! "status")
     && negb (value_is_str (default VNone (to_dict d !! "status")) "active")
  then (Some st, inl (HTTPException 400 "Listing not available"))
  else
    match to_dict d !! "price" with
    | None => (Some st, inl (KeyError "price"))
    | Some price =>
      match py_float env price with
      | inl e => (Some st, inl e)
      | inr amount =>
        match Order_new (co_buyer_id payload) (oid_hex (doc_id d)) amount
                (default (VStr "USD") (to_dict d !! "currency"))
                (py_str env <$> co_payment_method payload)
                (co_shipping_option payload) with
        | inl e => (Some st, inl e)
        | inr order =>
          if keys_ok (order_payment_method order)
          then (Some (checked_out env d order st), inr (order_confirmation env st))
          else (Some st, inl InvalidDocument)
        end
      end
    end.
Proof.
  intros Hr. unfold checkout, with_db, mbind, M_bind.
  rewrite (find_listing_resolves _ _ _ Hr).
  rewrite to_dict_truthy. cbn [negb default id].
  destruct (opt_truthy _ && _); [done|].
  unfold lift, getitem. rewrite to_dict_id.
  destruct (to_dict d !! "price") as [price|]; [|done].
  destruct (py_float env price) as [e|amount]; [done|].
  cbn [py_str].
  destruct (Order_new _ _ _ _ _ _) as [e|order]; [done|].
  unfold create_document. rewrite Order_dump_encode.
  destruct (keys_ok (order_payment_method order)); [|done].
  unfold update_one. cbn [compile_filter compile_clause compile_cond].
  unfold mret, M_ret, checked_out, order_confirmation.
  by rewrite (update_first_ext _ _ _ _ (matches_id _)).
Qed.

Lemma find_first_app (p : Document -> bool) (l l' : list Document) (d : Document) :
  find_first p l = Some d -> find_first p (l ++ l') = Some d.
Proof.
  induction l as [|x l IH]; simpl; [done|]. destruct (p x); [done|]. apply IH.
Qed.

Lemma find_first_update_same (p : Document -> bool) (f : Document -> Document)
    (l : list Document) (d : Document) :
  (forall x, p (f x) = p x) ->
  find_first p l = Some d ->
  find_first p (update_first p f l) = Some (f d).
Proof.
  intros Hf. induction l as [|x l IH]; simpl; [done|].
  destruct (p x) eqn:E; simpl.
  - intros [= ->]. by rewrite Hf, E.
  - rewrite E. apply IH.
Qed.

Lemma find_first_update_other (p q : Document -> bool) (f : Document -> Document)
    (l : list Document) (d : Document) :
  (forall x, p (f x) = p x) ->
  find_first p l = Some d ->
  find_first p (update_first q f l) = Some d
  \/ find_first p (update_first q f l) = Some (f d).
Proof.
  intros Hf. induction l as [|x l IH]; simpl; [done|].
  destruct (p x) eqn:E.
  - intros [= ->]. destruct (q d); simpl; rewrite ?Hf, E; auto.
  - intros H. destruct (q x); simpl; rewrite ?Hf, E; auto.
Qed.

Lemma has_id_mark_sold (o : ObjectId) (x : Document) :
  has_id o (mark_sold x) = has_id o x.
Proof. done. Qed.

Lemma mark_sold_status (d : Document) :
  to_dict (mark_sold d) !! "status" = Some (VStr "sold").
Proof.
  rewrite to_dict_other by done. unfold mark_sold, set_fields. simpl.
  apply lookup_union_Some_l. by rewrite lookup_singleton_eq.
Qed.

Lemma coll_checked_out_order (d : Document) (order : Order) (st : Store) :
  coll (checked_out env d order st) "order"
  = coll st "order" ++ [mkDoc (new_oid env st) (Order_dump order)].
Proof.
  unfold checked_out. cbn zeta. unfold coll at 1.
  rewrite lookup_insert_ne by done. apply coll_insert_one_eq.
Qed.

Lemma coll_checked_out_listing (d : Document) (order : Order) (st : Store) :
  coll (checked_out env d order st) "listing"
  = update_first (has_id (doc_id d)) mark_sold (coll st "listing").
Proof.
  unfold checked_out. cbn zeta. unfold coll at 1.
  rewrite lookup_insert_eq. cbn [default].
  by rewrite coll_insert_one_ne.
Qed.

Lemma coll_checked_out_other (d : Document) (order : Order) (st : Store)
    (name : string) :
  name ≠ "order" -> name ≠ "listing" ->
  coll (checked_out env d order st) name = coll st name.
Proof.
  intros H1 H2. unfold checked_out. cbn zeta. unfold coll at 1.
  rewrite lookup_insert_ne by done. by apply coll_insert_one_ne.
Qed.

Lemma resolves_id (st : Store) (listing_id : string) (d : Document) :
  resolves st listing_id d -> doc_id d = ObjectId_of_str listing_id.
Proof.
  intros [_ H]. apply find_first_Some in H as [H _].
  unfold has_id in H. by apply bool_decide_eq_true in H.
Qed.

(** The guard of line 185: a stored status that is truthy and is not
    ["active"] stops the checkout before anything is written. *)
Lemma checkout_status_guard (st : Store) (payload : CheckoutRequest)
    (d : Document) (v : value) :
  resolves st (co_listing_id payload) d ->
  to_dict d !! "status" = Some v ->
  py_truthy v = true ->
  value_is_str v "active" = false ->
  checkout env payload (Some st)
  = (Some st, inl (HTTPException 400 "Listing not available")).
Proof.
  intros Hr Hs Ht Ha. rewrite (checkout_resolved _ _ _ Hr), Hs.
  simpl. by rewrite Ht, Ha.
Qed.




(** ** What the handlers write *)

Lemma coll_insert_eq (name : string) (l : list Document) (st : Store) :
  coll (<[name := l]> st) name = l.
Proof. unfold coll. by rewrite lookup_insert_eq. Qed.

Lemma write_step_sold_in (o : ObjectId) (st st' : Store) :
  write_step st st' -> sold_in st o -> sold_in st' o.
Proof.
  intros Hstep (d & Hf & Hs). destruct Hstep as [name oid data st | q st].
  - exists d. split; [|done].
    destruct (decide (name = "listing")) as [-> | Hne].
    + rewrite coll_insert_one_eq. by apply find_first_app.
    + by rewrite coll_insert_one_ne.
  - unfold sold_in. rewrite coll_insert_eq.
    destruct (find_first_update_other (has_id o) q mark_sold
                (coll st "listing") d (has_id_mark_sold o) Hf) as [H | H].
    + by exists d.
    + exists (mark_sold d). split; [done|]. apply mark_sold_status.
Qed.

Lemma writes_sold_in (o : ObjectId) (st st' : Store) :
  writes st st' -> sold_in st o -> sold_in st' o.
Proof. induction 1; eauto using write_step_sold_in. Qed.

Lemma only_writes_ret {A : Type} (x : A) : only_writes (mret x).
Proof. intros st. exists st, (inr x). split; [done|apply rtc_refl]. Qed.

Lemma only_writes_raise {A : Type} (e : exception) : only_writes (@raise A e).
Proof. intros st. exists st, (inl e). split; [done|apply rtc_refl]. Qed.

Lemma only_writes_lift {A : Type} (r : result A) : only_writes (lift r).
Proof. intros st. exists st, r. split; [done|apply rtc_refl]. Qed.

Lemma only_writes_bind {A B : Type} (m : M A) (f : A -> M B) :
  only_writes m -> (forall x, only_writes (f x)) -> only_writes (m ≫= f).
Proof.
  intros Hm Hf st. unfold mbind, M_bind.
  destruct (Hm st) as (st1 & r & -> & H1). destruct r as [e|x].
  - by exists st1, (inl e).
  - destruct (Hf x st1) as (st2 & r & -> & H2).
    exists st2, r. split; [done|]. by etrans.
Qed.

Lemma only_writes_find_one (name : string) (f : list clause) :
  only_writes (find_one name f).
Proof.
  intros st. unfold find_one.
  destruct (compile_filter f); eexists _, _; (split; [done|apply rtc_refl]).
Qed.

Lemma only_writes_count_documents (name : string) (f : list clause) :
  only_writes (count_documents name f).
Proof.
  intros st. unfold count_documents.
  destruct (compile_filter f); eexists _, _; (split; [done|apply rtc_refl]).
Qed.

Lemma only_writes_find_sorted (name : string) (f : list clause) (field : string)
    (n m : Z) :
  only_writes (find_sorted env name f field n m).
Proof.
  intros st. unfold find_sorted.
  destruct (compile_filter f); eexists _, _; (split; [done|apply rtc_refl]).
Qed.

Lemma only_writes_create_document (name : string) (data : dict) :
  only_writes (create_document env name data).
Proof.
  intros st. unfold create_document. destruct (bson_encode data).
  - eexists _, _. split; [done|apply rtc_refl].
  - eexists _, _. split; [done|]. apply rtc_once, step_insert.
Qed.

Lemma only_writes_mark_sold (f : list clause) :
  only_writes (update_one "listing" f {[ "status" := VStr "sold" ]}).
Proof.
  intros st. unfold update_one.
  destruct (compile_filter f) as [e|k].
  - eexists _, _. split; [done|apply rtc_refl].
  - eexists _, _. split; [done|]. apply rtc_once, (step_sold (matches k)).
Qed.

Lemma only_writes_find_listing (listing_id : string) :
  only_writes (find_listing listing_id).
Proof.
  unfold find_listing. destruct (ObjectId_is_valid listing_id).
  - apply only_writes_find_one.
  - apply only_writes_ret.
Qed.

Ltac only_writes_step :=
  lazymatch goal with
  | |- only_writes (mret _) => apply only_writes_ret
  | |- only_writes (raise _) => apply only_writes_raise
  | |- only_writes (lift _) => apply only_writes_lift
  | |- only_writes (find_one _ _) => apply only_writes_find_one
  | |- only_writes (find_listing _) => apply only_writes_find_listing
  | |- only_writes (count_documents _ _) => apply only_writes_count_documents
  | |- only_writes (find_sorted _ _ _ _ _ _) => apply only_writes_find_sorted
  | |- only_writes (create_document _ _ _) => apply only_writes_create_document
  | |- only_writes (update_one _ _ _) => apply only_writes_mark_sold
  | |- only_writes (mbind _ _) => apply only_writes_bind; [|intros ?]
  | |- only_writes (if ?b then _ else _) => destruct b
  | |- only_writes (let _ := _ in _) => cbn zeta
  end.

Lemma with_db_writes {A : Type} (body : M A) (st : Store) :
  only_writes body ->
  exists st' r, with_db body (Some st) = (Some st', r) /\ writes st st'.
Proof.
  intros H. destruct (H st) as (st' & r & E & Hw).
  exists st', r. split; [|done]. unfold with_db. by rewrite E.
Qed.

Lemma checkout_writes (payload : CheckoutRequest) (st : Store) :
  exists st' r, checkout env payload (Some st) = (Some st', r) /\ writes st st'.
Proof. apply with_db_writes. repeat only_writes_step. Qed.

Lemma create_offer_writes (payload : OfferCreate) (st : Store) :
  exists st' r, create_offer env payload (Some st) = (Some st', r) /\ writes st st'.
Proof. apply with_db_writes. repeat only_writes_step. Qed.

Lemma create_listing_writes (payload : ListingCreate) (st : Store) :
  exists st' r, create_listing env payload (Some st) = (Some st', r) /\ writes st st'.
Proof. apply with_db_writes. repeat only_writes_step. Qed.

Lemma list_products_writes (a : ProductQuery) (st : Store) :
  exists st' r, list_products env a (Some st) = (Some st', r) /\ writes st st'.
Proof. apply with_db_writes. repeat only_writes_step. Qed.

Lemma serve_writes (r : request) (st : Store) :
  exists st', (serve env r (Some st)).1 = Some st' /\ writes st st'.
Proof.
  destruct r as [a | payload | payload | payload]; cbn [serve].
  - destruct (ProductQuery_valid a); [|exists st; split; [done|apply rtc_refl]].
    destruct (list_products_writes a st) as (st' & r & -> & H).
    exists st'. by split.
  - destruct (ListingCreate_valid payload); [|exists st; split; [done|apply rtc_refl]].
    destruct (create_listing_writes payload st) as (st' & r & -> & H).
    exists st'. by split.
  - destruct (create_offer_writes payload st) as (st' & r & -> & H).
    exists st'. by split.
  - destruct (checkout_writes payload st) as (st' & r & -> & H).
    exists st'. by split.
Qed.

Lemma serve_all_cons (r : request) (rs : list request) (db : option Store) :
  serve_all env (r :: rs) db = serve_all env rs (serve env r db).1.
Proof. done. Qed.

Lemma serve_all_writes (rs : list request) (st : Store) :
  exists st', serve_all env rs (Some st) = Some st' /\ writes st st'.
Proof.
  revert st. induction rs as [|r rs IH]; intros st.
  - exists st. split; [done|apply rtc_refl].
  - destruct (serve_writes r st) as (st1 & E & H1).
    rewrite serve_all_cons, E.
    destruct (IH st1) as (st2 & E2 & H2).
    exists st2. split; [done|]. by etrans.
Qed.

Lemma checkout_sold (st : Store) (payload : CheckoutRequest) :
  ObjectId_is_valid (co_listing_id payload) = true ->
  sold_in st (ObjectId_of_str (co_listing_id payload)) ->
  checkout env payload (Some st)
  = (Some st, inl (HTTPException 400 "Listing not available")).
Proof.
  intros Hv (d & Hf & Hs).
  by apply (checkout_status_guard st payload d (VStr "sold")).
Qed.

Lemma checkout_success_sold (st st1 : Store) (payload : CheckoutRequest) (resp : dict) :
  checkout env payload (Some st) = (Some st1, inr resp) ->
  ObjectId_is_valid (co_listing_id payload) = true
  /\ sold_in st1 (ObjectId_of_str (co_listing_id payload)).
Proof.
  intros H.
  destruct (ObjectId_is_valid (co_listing_id payload)) eqn:Hv;
    [destruct (find_first (has_id (ObjectId_of_str (co_listing_id payload)))
                 (coll st "listing")) as [d|] eqn:Hf|].
  - split; [done|].
    assert (resolves st (co_listing_id payload) d) as Hr by done.
    rewrite (checkout_resolved st payload d Hr) in H.
    repeat (match type of H with
            | context [match ?x with _ => _ end] => destruct x
            | context [if ?x then _ else _] => destruct x
            end; try discriminate).
    injection H as <- _.
    exists (mark_sold d). split; [|apply mark_sold_status].
    rewrite coll_checked_out_listing, <- (resolves_id _ _ _ Hr).
    apply find_first_update_same; [apply has_id_mark_sold|].
    by rewrite (resolves_id _ _ _ Hr).
  - unfold checkout, with_db, mbind, M_bind in H.
    by rewrite find_listing_eq, Hv, Hf in H.
  - unfold checkout, with_db, mbind, M_bind in H.
    by rewrite find_listing_eq, Hv in H.
Qed.

(** C3: once a checkout of a listing has succeeded, every later checkout
    of the same listing identifier, whatever requests were served in
    between, fails with 400 "Listing not available" and leaves the database
    as it found it, so no further order is stored. *)
Theorem checkout_twice (st st1 : Store) (payload payload' : CheckoutRequest)
    (resp : dict) (rs : list request) :
  checkout env payload (Some st) = (Some st1, inr resp) ->
  co_listing_id payload' = co_listing_id payload ->
  checkout env payload' (serve_all env rs (Some st1))
  = (serve_all env rs (Some st1), inl (HTTPException 400 "Listing not available")).
Proof.
  intros H Hid. apply checkout_success_sold in H as [Hv Hs].
  destruct (serve_all_writes rs st1) as (st2 & -> & Hw).
  apply checkout_sold; rewrite Hid; [done|].
  by apply (writes_sold_in _ st1).
Qed.

(** ** Listings *)

Lemma Product_dump_slug (p : Product) :
  Product_dump p !! "slug" = Some (VStr (product_slug p)).
Proof. reflexivity. Qed.

Lemma matches_slug (slug : string) (d : Document) :
  matches [KField ["slug"] (KEq (VStr slug))] d = has_slug slug d.
Proof.
  unfold matches, clause_holds, field_holds, has_slug.
  cbn [forallb path_values fst snd].
  destruct (to_dict d !! "slug") as [y|]; cbn [existsb]; [|done].
  by rewrite orb_false_r, andb_true_r.
Qed.

Lemma bson_types_ok_urls (l : list string) :
  bson_types_ok (VList (VUrl <$> l)) = match l with [] => true | _ => false end.
Proof. by destruct l. Qed.

Lemma bson_types_ok_strs (l : list string) : bson_types_ok (VList (VStr <$> l)) = true.
Proof. cbn. induction l as [|x l IH]; [done|]. by cbn. Qed.

Lemma bson_ints_ok_strs (l : list string) : bson_ints_ok (VList (VStr <$> l)) = true.
Proof. cbn. induction l as [|x l IH]; [done|]. by cbn. Qed.

Lemma bson_ints_ok_urls (l : list string) : bson_ints_ok (VList (VUrl <$> l)) = true.
Proof. cbn. induction l as [|x l IH]; [done|]. by cbn. Qed.

Lemma SizeVariant_dump_types_ok (v : SizeVariant) :
  bson_types_ok (VDict (SizeVariant_dump v)) = true.
Proof.
  apply bson_types_ok_dict. intros k x Hk. unfold SizeVariant_dump in Hk.
  dump_fields Hk.
Qed.

Lemma SizeVariant_dump_ints_ok (v : SizeVariant) :
  bson_ints_ok (VDict (SizeVariant_dump v)) = int64 (sv_inventory_quantity v).
Proof.
  apply eq_true_iff_eq. rewrite bson_ints_ok_dict. split.
  - intros H. refine (H "inventory_quantity" (VInt (sv_inventory_quantity v)) _).
    reflexivity.
  - intros H k x Hk. unfold SizeVariant_dump in Hk.
    repeat (apply lookup_insert_Some in Hk as [[<- <-]|[_ Hk]]; [done|]).
    by apply lookup_singleton_Some in Hk as [<- <-].
Qed.

Lemma size_variants_types_ok (l : list SizeVariant) :
  bson_types_ok (VList ((fun v => VDict (SizeVariant_dump v)) <$> l)) = true.
Proof.
  cbn [bson_types_ok]. apply forallb_forall. intros x [v [<- _]]%in_map_iff.
  apply SizeVariant_dump_types_ok.
Qed.

Lemma size_variants_ints_ok (l : list SizeVariant) :
  bson_ints_ok (VList ((fun v => VDict (SizeVariant_dump v)) <$> l))
  = forallb (fun v => int64 (sv_inventory_quantity v)) l.
Proof.
  cbn [bson_ints_ok]. induction l as [|v l IH]; [done|].
  cbn [fmap list_fmap forallb]. f_equal; [apply SizeVariant_dump_ints_ok|apply IH].
Qed.

Lemma Dimensions_dump_ints_ok (d : Dimensions) :
  bson_ints_ok (VDict (Dimensions_dump d))
  = int64 (dim_length d) && int64 (dim_width d) && int64 (dim_height d).
Proof.
  apply eq_true_iff_eq. rewrite bson_ints_ok_dict, !andb_true_iff. split.
  - intros H. repeat split.
    + refine (H "length" (VInt (dim_length d)) _). reflexivity.
    + refine (H "width" (VInt (dim_width d)) _). reflexivity.
    + refine (H "height" (VInt (dim_height d)) _). reflexivity.
  - intros [[H1 H2] H3] k x Hk. unfold Dimensions_dump in Hk.
    repeat (apply lookup_insert_Some in Hk as [[<- <-]|[_ Hk]]; [done|]).
    by apply lookup_singleton_Some in Hk as [<- <-].
Qed.

Lemma Dimensions_dump_types_ok (d : Dimensions) :
  bson_types_ok (VDict (Dimensions_dump d)) = true.
Proof.
  apply bson_types_ok_dict. intros k x Hk. unfold Dimensions_dump in Hk.
  dump_fields Hk.
Qed.

(** The encoder raises [InvalidDocument] on a dumped product exactly when
    the product has an image or a video. *)
Lemma Product_dump_types_ok (p : Product) :
  bson_types_ok (VDict (Product_dump p)) = negb (Product_pictured p).
Proof.
  apply eq_true_iff_eq. rewrite bson_types_ok_dict. unfold Product_pictured. split.
  - intros H.
    assert (bson_types_ok (VList (VUrl <$> product_images p)) = true) as H1.
    { refine (proj2 (H "images" _ _)). reflexivity. }
    assert (bson_types_ok (opt_value VUrl (product_gallery_video p)) = true) as H2.
    { refine (proj2 (H "gallery_video" _ _)). reflexivity. }
    rewrite bson_types_ok_urls in H1.
    destruct (product_images p); [|done]. by destruct (product_gallery_video p).
  - intros H k x Hk.
    destruct (product_images p) eqn:Hi; [|done].
    destruct (product_gallery_video p) eqn:Hv; [done|].
    unfold Product_dump in Hk. cbn [list_to_map foldr fst snd uncurry] in Hk.
    rewrite Hi, Hv in Hk.
    repeat (apply lookup_insert_Some in Hk as [[<- <-]|[_ Hk]];
            [split; [reflexivity|];
             lazymatch goal with
             | |- bson_types_ok (VList (VStr <$> _)) = true => apply bson_types_ok_strs
             | |- bson_types_ok (VList (VUrl <$> _)) = true => reflexivity
             | |- bson_types_ok (VList (_ <$> _)) = true => apply size_variants_types_ok
             | |- bson_types_ok (VDict (Dimensions_dump _)) = true =>
                 apply Dimensions_dump_types_ok
             | _ => unfold opt_value; repeat case_match; reflexivity
             end|]).
    by rewrite lookup_empty in Hk.
Qed.

(** The encoder raises [OverflowError] on a dumped product exactly when
    one of its integers is outside 64 bits. *)
Lemma Product_dump_ints_ok (p : Product) :
  bson_ints_ok (VDict (Product_dump p)) = Product_ints_ok p.
Proof.
  apply eq_true_iff_eq. rewrite bson_ints_ok_dict. unfold Product_ints_ok.
  rewrite !andb_true_iff. split.
  - intros H.
    assert (bson_ints_ok (VDict (Dimensions_dump (product_dimensions_mm p))) = true) as Hd.
    { refine (H "dimensions_mm" _ _). reflexivity. }
    rewrite Dimensions_dump_ints_ok, !andb_true_iff in Hd. destruct Hd as [[? ?] ?].
    repeat split; try done.
    + refine (H "release_year" (VInt _) _). reflexivity.
    + rewrite <- size_variants_ints_ok. refine (H "size_variants" _ _). reflexivity.
    + refine (H "shipping_weight_grams" (VInt _) _). reflexivity.
  - intros [[[[[H1 H2] H3] H4] H5] H6] k x Hk.
    unfold Product_dump in Hk. cbn [list_to_map foldr fst snd uncurry] in Hk.
    repeat (apply lookup_insert_Some in Hk as [[<- <-]|[_ Hk]];
            [lazymatch goal with
             | |- bson_ints_ok (VList (VStr <$> _)) = true => apply bson_ints_ok_strs
             | |- bson_ints_ok (VList (VUrl <$> _)) = true => apply bson_ints_ok_urls
             | |- bson_ints_ok (VList (_ <$> _)) = true =>
                 by rewrite size_variants_ints_ok
             | |- bson_ints_ok (VDict (Dimensions_dump _)) = true =>
                 by rewrite Dimensions_dump_ints_ok, H4, H5, H6
             | |- bson_ints_ok (VInt _) = true => assumption
             | _ => unfold opt_value; repeat case_match; reflexivity
             end|]).
    by rewrite lookup_empty in Hk.
Qed.

Lemma Product_dump_encode (p : Product) :
  Product_storable p = true -> bson_encode (Product_dump p) = inr tt.
Proof.
  unfold Product_storable. intros [Hp Hi]%andb_true_iff.
  apply bson_encode_ok. by rewrite Product_dump_types_ok, Product_dump_ints_ok.
Qed.

Lemma Product_dump_refused (p : Product) :
  Product_pictured p = true ->
  bson_encode (Product_dump p)
  = inl (if Product_ints_ok p then InvalidDocument
         else Unmodelled "first fault of the encoder").
Proof.
  intros Hp. unfold bson_encode.
  rewrite Product_dump_types_ok, Product_dump_ints_ok, Hp. cbn [negb].
  by destruct (Product_ints_ok p).
Qed.

Lemma list_product_eq (payload : ListingCreate) (product_id : string) (st : Store) :
  (let '(st', r) :=
     (listing ← lift (Listing_new (lc_seller_id payload) product_id
                        (lc_price payload) (lc_listing_type payload));
      listing_id ← create_document env "listing" (Listing_dump listing);
      mret ({[ "status" := VStr "listing_created";
               "listing_id" := VStr listing_id;
               "product_id" := VStr product_id ]} : dict)) st in
   (Some st', r))
  = list_product env payload product_id st.
Proof.
  unfold list_product, mbind, M_bind, lift.
  destruct (Listing_new _ _ _ _) as [e|l]; [done|].
  by rewrite create_document_stored by apply Listing_dump_encode.
Qed.

(** No stored product is looked up, or none carries the slug: the product
    goes to the encoder and the store. *)
Lemma create_listing_creates (st : Store) (payload : ListingCreate) :
  product_slug (lc_product payload) = ""
  \/ find_first (has_slug (product_slug (lc_product payload))) (coll st "product")
     = None ->
  create_listing env payload (Some st)
  = match bson_encode (Product_dump (lc_product payload)) with
    | inl e => (Some st, inl e)
    | inr _ =>
      list_product env payload (oid_hex (new_oid env st))
        (insert_one "product" (new_oid env st) (Product_dump (lc_product payload)) st)
    end.
Proof.
  intros H.
  assert (forall o : option dict, optdict_truthy o = false ->
            (let '(st', r) :=
               (product_id ←
                  (if optdict_truthy o
                   then let existing := default ∅ o in
                        if bool_decide (is_Some (existing !! "._id"))
                        then v ← lift (getitem existing "._id"); mret (py_str env v)
                        else v ← lift (getitem existing "_id"); mret (py_str env v)
                   else create_document env "product"
                          (Product_dump (lc_product payload)));
                listing ← lift (Listing_new (lc_seller_id payload) product_id
                                  (lc_price payload) (lc_listing_type payload));
                listing_id ← create_document env "listing" (Listing_dump listing);
                mret ({[ "status" := VStr "listing_created";
                         "listing_id" := VStr listing_id;
                         "product_id" := VStr product_id ]} : dict)) st in
             (Some st', r))
            = match bson_encode (Product_dump (lc_product payload)) with
              | inl e => (Some st, inl e)
              | inr _ =>
                list_product env payload (oid_hex (new_oid env st))
                  (insert_one "product" (new_oid env st)
                     (Product_dump (lc_product payload)) st)
              end) as Hbody.
  { intros o ->. unfold mbind at 1, M_bind at 1, create_document.
    destruct (bson_encode (Product_dump (lc_product payload))); [done|].
    apply list_product_eq. }
  unfold create_listing, with_db. cbn zeta.
  rewrite Product_dump_slug. unfold opt_truthy, py_truthy.
  unfold mbind at 1, M_bind at 1.
  destruct (negb (str_eqb (product_slug (lc_product payload)) "")) eqn:Hs.
  - destruct H as [H | H];
      [unfold str_eqb in Hs; by rewrite bool_decide_eq_true_2 in Hs|].
    unfold mbind at 1, M_bind at 1, lift, getitem. rewrite Product_dump_slug.
    unfold find_one. cbn [compile_filter compile_clause compile_cond].
    rewrite (find_first_ext _ _ _ (matches_slug _)), H.
    cbn [fmap option_fmap option_map]. by apply Hbody.
  - unfold mret at 1, M_ret at 1. by apply Hbody.
Qed.

(** The same, for a product the encoder accepts: the product is inserted,
    then the listing is validated and stored. *)
Lemma create_listing_inserts (st : Store) (payload : ListingCreate) :
  product_slug (lc_product payload) = ""
  \/ find_first (has_slug (product_slug (lc_product payload))) (coll st "product")
     = None ->
  Product_storable (lc_product payload) = true ->
  create_listing env payload (Some st)
  = list_product env payload (oid_hex (new_oid env st))
      (insert_one "product" (new_oid env st) (Product_dump (lc_product payload)) st).
Proof.
  intros H Hp. rewrite (create_listing_creates st payload H).
  by rewrite (Product_dump_encode _ Hp).
Qed.

(** The same, for a product with an image or a video: the encoder refuses
    it, nothing is written. *)
Lemma create_listing_refused (st : Store) (payload : ListingCreate) :
  product_slug (lc_product payload) = ""
  \/ find_first (has_slug (product_slug (lc_product payload))) (coll st "product")
     = None ->
  Product_pictured (lc_product payload) = true ->
  create_listing env payload (Some st)
  = (Some st,
     inl (if Product_ints_ok (lc_product payload) then InvalidDocument
          else Unmodelled "first fault of the encoder")).
Proof.
  intros H Hp. rewrite (create_listing_creates st payload H).
  by rewrite (Product_dump_refused _ Hp).
Qed.

(** The slug is not empty and names a stored product that has no field
    ["._id"]: nothing is inserted into the products and the listing refers
    to that product. *)
Lemma create_listing_reuses (st : Store) (payload : ListingCreate) (e : Document) :
  product_slug (lc_product payload) ≠ "" ->
  find_first (has_slug (product_slug (lc_product payload))) (coll st "product")
  = Some e ->
  to_dict e !! "._id" = None ->
  create_listing env payload (Some st)
  = list_product env payload (oid_hex (doc_id e)) st.
Proof.
  intros Hs Hf Hn. rewrite <- list_product_eq.
  unfold create_listing, with_db. cbn zeta.
  rewrite Product_dump_slug. unfold opt_truthy, py_truthy.
  unfold mbind at 1, M_bind at 1.
  unfold str_eqb. rewrite bool_decide_eq_false_2 by done. cbn [negb].
  unfold mbind at 1, M_bind at 1, lift, getitem. rewrite Product_dump_slug.
  unfold find_one. cbn [compile_filter compile_clause compile_cond].
  rewrite (find_first_ext _ _ _ (matches_slug _)), Hf.
  cbn [fmap option_fmap option_map].
  rewrite to_dict_truthy. cbn [default id].
  rewrite Hn. rewrite bool_decide_eq_false_2 by (by intros [? ?]).
  unfold mbind at 1, M_bind at 1. rewrite to_dict_id. done.
Qed.





(** The listing is validated only after the product was written: when no
    stored product is reused, the product is one the encoder accepts and
    the listing fails its schema, the handler raises with the product
    already stored. *)
Lemma create_listing_invalid_listing (st : Store) (payload : ListingCreate) :
  product_slug (lc_product payload) = ""
  \/ find_first (has_slug (product_slug (lc_product payload))) (coll st "product")
     = None ->
  Product_storable (lc_product payload) = true ->
  float_ge0 (lc_price payload) && in_literal (lc_listing_type payload) listing_type_literal
  = false ->
  create_listing env payload (Some st)
  = (Some (insert_one "product" (new_oid env st)
             (Product_dump (lc_product payload)) st),
     inl (ValidationError "Listing")).
Proof.
  intros H Hst Hv. rewrite create_listing_inserts by done.
  unfold list_product, Listing_new. by rewrite Hv.
Qed.

(** ** Offers, continued *)

(** C9: the offer that a successful [create_offer] stores is the one built
    from the payload alone, with currency "USD" and status "pending"; no
    field of the listing enters it. *)
Theorem create_offer_defaults (st st' : Store) (payload : OfferCreate) (resp : dict) :
  create_offer env payload (Some st) = (Some st', inr resp) ->
  exists o,
    coll st' "offer" = coll st "offer" ++ [o]
    /\ doc_body o
       = Offer_dump (mkOffer (oc_buyer_id payload) (oc_listing_id payload)
                       (oc_offer_price payload) "USD" "pending" None None)
    /\ doc_body o !! "currency" = Some (VStr "USD")
    /\ doc_body o !! "status" = Some (VStr "pending").
Proof.
  unfold create_offer, with_db, mbind, M_bind. rewrite find_listing_eq.
  destruct (negb _); [done|].
  unfold lift, Offer_new. destruct (float_ge0 _); [|done].
  rewrite create_document_stored by apply Offer_dump_encode.
  unfold mret, M_ret. intros [= <- _].
  eexists (mkDoc _ _). split; [apply coll_insert_one_eq|].
  split; [reflexivity|]. split; reflexivity.
Qed.

(** An offer on a stored listing with a price that is not negative is
    stored, whatever the listing holds. *)
Lemma create_offer_succeeds (st : Store) (payload : OfferCreate) (d : Document) :
  resolves st (oc_listing_id payload) d ->
  float_ge0 (oc_offer_price payload) = true ->
  create_offer env payload (Some st)
  = (Some (insert_one "offer" (new_oid env st)
             (Offer_dump (mkOffer (oc_buyer_id payload) (oc_listing_id payload)
                            (oc_offer_price payload) "USD" "pending" None None))
             st),
     inr {[ "status" := VStr "offer_created";
            "offer_id" := VStr (oid_hex (new_oid env st)) ]}).
Proof.
  intros Hr Hp. unfold create_offer, with_db, mbind, M_bind.
  rewrite (find_listing_resolves _ _ _ Hr), to_dict_truthy. cbn [negb].
  unfold lift, Offer_new. rewrite Hp.
  by rewrite create_document_stored by apply Offer_dump_encode.
Qed.

(** A request that fails in [create_offer] or in [checkout] fails before
    anything is written. *)
Lemma create_offer_error_writes_nothing (st st' : Store) (payload : OfferCreate)
    (e : exception) :
  create_offer env payload (Some st) = (Some st', inl e) -> st' = st.
Proof.
  unfold create_offer, with_db, mbind, M_bind. rewrite find_listing_eq.
  destruct (negb _); [by intros [= <- _]|].
  unfold lift. destruct (Offer_new _ _ _); [by intros [= <- _]|].
  rewrite create_document_stored by apply Offer_dump_encode.
  unfold mret, M_ret. discriminate.
Qed.

Lemma checkout_error_writes_nothing (st st' : Store) (payload : CheckoutRequest)
    (e : exception) :
  checkout env payload (Some st) = (Some st', inl e) -> st' = st.
Proof.
  intros H.
  destruct (ObjectId_is_valid (co_listing_id payload)) eqn:Hv;
    [destruct (find_first (has_id (ObjectId_of_str (co_listing_id payload)))
                 (coll st "listing")) as [d|] eqn:Hf|].
  - rewrite (checkout_resolved st payload d) in H by done.
    repeat (match type of H with
            | context [match ?x with _ => _ end] => destruct x
            | context [if ?x then _ else _] => destruct x
            end; try discriminate); by injection H as <- _.
  - unfold checkout, with_db, mbind, M_bind in H.
    rewrite find_listing_eq, Hv, Hf in H. by injection H as <- _.
  - unfold checkout, with_db, mbind, M_bind in H.
    rewrite find_listing_eq, Hv in H. by injection H as <- _.
Qed.

(** ** Products: the brand filter *)

Lemma plain_cons (c : ascii) (cs : list ascii) :
  plain (c :: cs) = true ->
  ascii_eqb c "^" = false /\ ascii_eqb c "$" = false /\ ascii_eqb c "." = false
  /\ ascii_eqb c "*" = false /\ is_meta c = false /\ plain cs = true.
Proof.
  unfold plain. cbn [forallb]. intros [Hc Hcs]%andb_true_iff.
  apply negb_true_iff in Hc. rewrite Hc.
  unfold is_meta in Hc. cbn [list_ascii_of_string existsb] in Hc.
  repeat (apply orb_false_iff in Hc as [? Hc]). by repeat split.
Qed.

Lemma regex_parse_plain (cs : list ascii) :
  plain cs = true ->
  regex_parse (cs ++ ["$"%char]) = Some ((literal <$> cs) ++ [REol]).
Proof.
  induction cs as [|c cs IH]; [done|].
  intros (H1 & H2 & H3 & H4 & H5 & Hcs)%plain_cons.
  cbn [app regex_parse]. rewrite H1, H2, H3, H5.
  specialize (IH Hcs).
  destruct cs as [|c' cs].
  - done.
  - apply plain_cons in Hcs as (_ & _ & _ & H4' & _ & _).
    cbn [app]. rewrite H4'. cbn [app] in IH. by rewrite IH.
Qed.

Lemma match_here_plain (cs : list ascii) (b : bool) (text : list ascii) :
  match_here true ((literal <$> cs) ++ [REol]) b text = ci_eqb_nl cs text.
Proof.
  revert b text. induction cs as [|c cs IH]; intros b text.
  - cbn. by rewrite andb_true_r.
  - cbn [fmap list_fmap app match_here literal ci_eqb_nl atom_matches].
    destruct text as [|x text]; [done|]. by rewrite (IH false text).
Qed.

Lemma search_from_bol (items : list ritem) (text : list ascii) :
  search_from true (RBol :: items) false text = false.
Proof. induction text as [|x text IH]; [done|]. cbn. by rewrite IH. Qed.

Lemma regex_search_anchored (cs : list ascii) (text : string) :
  regex_search true (RBol :: (literal <$> cs) ++ [REol]) text
  = ci_eqb_nl cs (list_ascii_of_string text).
Proof.
  unfold regex_search.
  destruct (list_ascii_of_string text) as [|x t] eqn:E.
  - cbn [search_from match_here andb]. by rewrite match_here_plain, orb_false_r.
  - cbn [search_from]. rewrite search_from_bol, orb_false_r.
    cbn [match_here andb]. by rewrite match_here_plain.
Qed.

Lemma list_ascii_app (a b : string) :
  list_ascii_of_string (a +:+ b) = list_ascii_of_string a ++ list_ascii_of_string b.
Proof. induction a as [|c a IH]; [done|]. simpl. by f_equal. Qed.

(** For a brand that is not empty and has no character of the regex
    syntax, the brand clause of [filter_q] selects a stored text exactly
    when it is the brand up to case (and a final newline). *)
Lemma brand_clause_plain (brand : string) :
  plain (list_ascii_of_string brand) = true ->
  compile_cond (CRegex ("^" +:+ brand +:+ "$") "i")
  = inr (KRegex true (RBol :: (literal <$> list_ascii_of_string brand) ++ [REol]))
  /\ forall y : string,
       holds (KRegex true (RBol :: (literal <$> list_ascii_of_string brand) ++ [REol]))
         (VStr y)
       = ci_eqb_nl (list_ascii_of_string brand) (list_ascii_of_string y).
Proof.
  intros Hp. split.
  - unfold compile_cond. cbn [str_eqb negb orb].
    replace (str_eqb "i" "") with false by done.
    replace (str_eqb "i" "i") with true by done. cbn [orb negb].
    change ("^" +:+ brand +:+ "$") with (String "^" (brand +:+ "$")).
    cbn [list_ascii_of_string regex_parse].
    replace (ascii_eqb "^" "^") with true by done.
    rewrite list_ascii_app. cbn [list_ascii_of_string].
    by rewrite regex_parse_plain.
  - intros y. unfold holds. cbn [holds_scalar]. rewrite orb_false_r.
    apply regex_search_anchored.
Qed.

Lemma filter_ext_in (p q : Document -> bool) (l : list Document) :
  (forall d, p d = q d) -> List.filter p l = List.filter q l.
Proof. intros E. induction l as [|d l IH]; simpl; [done|]. by rewrite E, IH. Qed.

Lemma matches_brand_plain (brand : string) (d : Document) :
  matches [KField ["brand"]
             (KRegex true (RBol :: (literal <$> list_ascii_of_string brand) ++ [REol]))] d
  = brand_is brand d.
Proof.
  unfold matches, clause_holds, field_holds, brand_is.
  cbn [forallb path_values fst snd]. rewrite andb_true_r.
  destruct (to_dict d !! "brand") as [x|]; [|done].
  cbn [existsb]. rewrite orb_false_r. unfold holds.
  destruct x as [| | | |y| | | |l|]; cbn [holds_scalar]; rewrite ?orb_false_r; try done.
  - apply regex_search_anchored.
  - cbn [orb]. induction l as [|x l IH]; [done|]. cbn [existsb]. rewrite IH.
    f_equal. destruct x; cbn [holds_scalar]; try done. apply regex_search_anchored.
Qed.

(** With a brand that is not empty and has no character of the regex
    syntax as the only parameter, the count that [list_products] returns
    is the number of products of that brand. *)
Lemma list_products_total_plain (brand : string) (page per_page : Z) (st : Store) :
  plain (list_ascii_of_string brand) = true ->
  brand ≠ "" ->
  response_field "total"
    (list_products env (mkProductQuery None (Some brand) None None page per_page)
       (Some st))
  = Some (VInt (Z.of_nat (length (List.filter (brand_is brand) (coll st "product"))))).
Proof.
  intros Hp Hne. destruct (brand_clause_plain brand Hp) as [Hc _].
  unfold list_products, with_db, mbind, M_bind, count_documents, find_sorted.
  unfold filter_q. cbn [pq_q pq_brand pq_condition pq_size str_truthy the_str default id].
  unfold str_eqb. rewrite (bool_decide_eq_false_2 (brand = "")) by done.
  cbn [negb app compile_filter compile_clause]. rewrite Hc.
  unfold response_field, mret, M_ret. cbn [snd fst].
  rewrite (filter_ext_in _ _ _ (matches_brand_plain brand)).
  reflexivity.
Qed.

End Properties.

(** * Further properties *)

Section MoreProperties.

Context (env : Env).

(** ** Identifiers *)

Lemma is_hex_digit_lower (c : ascii) : is_hex_digit (ascii_lower c) = is_hex_digit c.
Proof. by destruct c as [[] [] [] [] [] [] [] []]. Qed.

Lemma ascii_lower_idemp (c : ascii) : ascii_lower (ascii_lower c) = ascii_lower c.
Proof. by destruct c as [[] [] [] [] [] [] [] []]. Qed.

Lemma str_lower_idemp (s : string) : str_lower (str_lower s) = str_lower s.
Proof. induction s as [|c s IH]; [done|]. cbn. by rewrite ascii_lower_idemp, IH. Qed.

Lemma str_lower_length (s : string) : String.length (str_lower s) = String.length s.
Proof. induction s as [|c s IH]; [done|]. cbn. by rewrite IH. Qed.

Lemma str_forall_hex_lower (s : string) :
  str_forall is_hex_digit (str_lower s) = str_forall is_hex_digit s.
Proof. induction s as [|c s IH]; [done|]. cbn. by rewrite is_hex_digit_lower, IH. Qed.

Lemma is_space_lower (c : ascii) : is_space (ascii_lower c) = is_space c.
Proof. by destruct c as [[] [] [] [] [] [] [] []]. Qed.

Lemma is_hex_digit_not_space (c : ascii) : is_hex_digit c = true -> is_space c = false.
Proof. by destruct c as [[] [] [] [] [] [] [] []]. Qed.

Lemma fromhex_one (c : ascii) :
  fromhex (String c "") = if is_space c then Some "" else None.
Proof. reflexivity. Qed.

Lemma fromhex_two (c d : ascii) (r : string) :
  fromhex (String c (String d r))
  = if is_space c then fromhex (String d r)
    else if is_hex_digit c && is_hex_digit d
         then String (ascii_lower c) <$> (String (ascii_lower d) <$> fromhex r)
         else None.
Proof. reflexivity. Qed.

(** [bytes.fromhex] does not see the case of the digits. *)
Lemma fromhex_lower (s : string) : fromhex (str_lower s) = fromhex s.
Proof.
  enough (fromhex (str_lower s) = fromhex s
          /\ forall c, fromhex (str_lower (String c s)) = fromhex (String c s))
    as [H _] by exact H.
  induction s as [|d s [IH1 IH2]].
  - split; [done|]. intros c. cbn [str_lower]. by rewrite !fromhex_one, is_space_lower.
  - split; [apply IH2|]. intros c.
    specialize (IH2 d). cbn [str_lower] in IH2 |- *.
    rewrite (fromhex_two (ascii_lower c)), (fromhex_two c).
    rewrite is_space_lower, !is_hex_digit_lower, !ascii_lower_idemp, IH1.
    by destruct (is_space c).
Qed.

Lemma ObjectId_is_valid_lower (s : string) :
  ObjectId_is_valid (str_lower s) = ObjectId_is_valid s.
Proof. unfold ObjectId_is_valid. by rewrite str_lower_length, fromhex_lower. Qed.

Lemma ObjectId_of_str_lower (s : string) :
  ObjectId_of_str (str_lower s) = ObjectId_of_str s.
Proof. unfold ObjectId_of_str. by rewrite fromhex_lower. Qed.

(** On hexadecimal digits alone, an even number of them, the bytes read
    are the digits in lower case. *)
Lemma fromhex_hex (s : string) :
  str_forall is_hex_digit s = true ->
  Nat.even (String.length s) = true ->
  fromhex s = Some (str_lower s).
Proof.
  enough ((str_forall is_hex_digit s = true -> Nat.even (String.length s) = true ->
           fromhex s = Some (str_lower s))
          /\ forall c, str_forall is_hex_digit (String c s) = true ->
                       Nat.even (String.length (String c s)) = true ->
                       fromhex (String c s) = Some (str_lower (String c s)))
    as [H _] by exact H.
  induction s as [|d s [IH1 IH2]].
  - split; [done|]. intros c _ He. discriminate He.
  - split; [apply IH2|]. intros c. cbn [str_forall String.length str_lower].
    intros [Hc [Hd Hs]%andb_true_iff]%andb_true_iff He.
    rewrite fromhex_two, (is_hex_digit_not_space c Hc), Hc, Hd. cbn [andb].
    by rewrite (IH1 Hs He).
Qed.


(** A text of 24 hexadecimal digits is a valid identifier, and names the
    identifier that prints as the text in lower case. *)
Lemma hex24_valid (s : string) :
  hex24 s = true ->
  ObjectId_is_valid s = true /\ ObjectId_of_str s = mkOid (str_lower s).
Proof.
  unfold hex24, ObjectId_is_valid, ObjectId_of_str.
  intros [Hl Hh]%andb_true_iff. rewrite Hl.
  rewrite (fromhex_hex s Hh); [done|].
  apply Nat.eqb_eq in Hl. by rewrite Hl.
Qed.


(** ** serialize_doc, further *)

Lemma map_fold_andb (p : value -> bool) (d : dict) :
  map_fold (fun _ x acc => p x && acc) true d = true
  <-> forall j x, d !! j = Some x -> p x = true.
Proof.
  apply (map_fold_weak_ind
           (fun r (m : dict) => r = true <-> forall j x, m !! j = Some x -> p x = true)).
  - split; [|done]. intros _ j x. by rewrite lookup_empty.
  - intros i x m r Hi IH. rewrite andb_true_iff, IH. split.
    + intros [Hx Hm] j y [[-> <-]|[_ Hj]]%lookup_insert_Some; [done|]. by apply (Hm j).
    + intros H. split.
      * apply (H i). by rewrite lookup_insert_eq.
      * intros j y Hj. apply (H j). rewrite lookup_insert_ne; [done|].
        intros ->. by rewrite Hi in Hj.
Qed.

Lemma raw_id_free_dict (d : dict) :
  raw_id_free (VDict d) = true <-> forall j x, d !! j = Some x -> raw_id_free x = true.
Proof. apply (map_fold_andb raw_id_free). Qed.

Lemma stringify_id_or_free (x : value) :
  id_or_free x = true -> raw_id_free (stringify_oid env x) = true.
Proof. unfold id_or_free. by destruct x. Qed.

Lemma serialize_field_one_level (w : value) :
  one_level w = true -> raw_id_free (serialize_field env w) = true.
Proof.
  destruct w as [| | | | | | | |l|d]; try done.
  - cbn [one_level serialize_field raw_id_free]. intros H.
    apply forallb_forall. intros x [y [<- Hy]]%in_map_iff.
    apply stringify_id_or_free. by apply (proj1 (forallb_forall _ _) H).
  - cbn [one_level serialize_field]. intros H.
    apply raw_id_free_dict. intros j x Hj.
    rewrite lookup_fmap in Hj. destruct (d !! j) as [y|] eqn:E; simplify_eq/=.
    apply stringify_id_or_free. by apply (proj1 (map_fold_andb id_or_free d) H j).
Qed.

Lemma serialize_doc_raw_id_free (doc : dict) :
  (forall k v, doc !! k = Some v -> k ≠ "_id" -> one_level v = true) ->
  raw_id_free (VDict (serialize_doc env doc)) = true.
Proof.
  intros H. apply raw_id_free_dict. intros j x. unfold serialize_doc.
  destruct (py_truthy (VDict doc)) eqn:Ht; cbn [negb].
  - rewrite lookup_fmap. intros Hj.
    match type of Hj with serialize_field _ <$> ?o = _ => destruct o as [w|] eqn:E end;
      simplify_eq/=.
    apply serialize_field_one_level.
    assert (w = VStr (py_str env (default VNone (doc !! "_id")))
            \/ (doc !! j = Some w /\ j ≠ "_id")) as [-> | [Hw Hne]]; [|done|by eauto].
    destruct (default VNone (doc !! "_id"));
      try (apply lookup_insert_Some in E as [[_ <-]|[_ E]]; [by left|]);
      apply lookup_delete_Some in E as [? ?]; by right.
  - apply dict_falsy_empty in Ht. subst doc. by rewrite lookup_empty.
Qed.

(** X2: when every identifier of a document sits at most one level deep
    (a field, a direct element of a list field, a direct value of a dict
    field), what [serialize_doc] returns holds no raw identifier at any
    depth. *)
Theorem serialize_doc_complete_one_level (doc : dict) :
  (forall k v, doc !! k = Some v -> k ≠ "_id" -> one_level v = true) ->
  raw_id_free (VDict (serialize_doc env doc)) = true.
Proof. apply serialize_doc_raw_id_free. Qed.

Lemma stringify_oid_idemp (x : value) :
  stringify_oid env (stringify_oid env x) = stringify_oid env x.
Proof. by destruct x. Qed.

Lemma serialize_field_idemp (w : value) :
  serialize_field env (serialize_field env w) = serialize_field env w.
Proof.
  destruct w as [| | | | | | | |l|d]; try done; cbn [serialize_field]; f_equal.
  - rewrite <- list_fmap_compose. apply list_fmap_ext. intros _ x _.
    apply stringify_oid_idemp.
  - rewrite <- map_fmap_compose. apply map_fmap_ext. intros j x _.
    apply stringify_oid_idemp.
Qed.

(** X3: [serialize_doc] is idempotent: a document that was serialized is
    returned unchanged when serialized again. *)
Theorem serialize_doc_idempotent (doc : dict) :
  serialize_doc env (serialize_doc env doc) = serialize_doc env doc.
Proof.
  destruct (serialize_doc_one_level env doc) as [Hid _].
  set (r := serialize_doc env doc) in *.
  unfold serialize_doc at 1.
  destruct (py_truthy (VDict r)); cbn [negb]; [|done].
  rewrite Hid. cbn [default]. rewrite (delete_id _ _ Hid).
  apply map_eq. intros k. rewrite lookup_fmap.
  destruct (r !! k) as [v|] eqn:E; [|done]. cbn. f_equal.
  subst r. unfold serialize_doc in E.
  destruct (py_truthy (VDict doc)) eqn:Ht; cbn [negb] in E.
  - rewrite lookup_fmap in E.
    match type of E with serialize_field _ <$> ?o = _ => destruct o as [w|] end;
      simplify_eq/=.
    apply serialize_field_idemp.
  - apply dict_falsy_empty in Ht. subst doc. by rewrite lookup_empty in E.
Qed.

Lemma raw_id_free_strs (l : list string) : raw_id_free (VList (VStr <$> l)) = true.
Proof. cbn. induction l as [|x l IH]; [done|]. by cbn. Qed.

Lemma raw_id_free_urls (l : list string) : raw_id_free (VList (VUrl <$> l)) = true.
Proof. cbn. induction l as [|x l IH]; [done|]. by cbn. Qed.

Lemma raw_id_free_opt {A : Type} (f : A -> value) (o : option A) :
  (forall x, raw_id_free (f x) = true) -> raw_id_free (opt_value f o) = true.
Proof. intros H. destruct o; [apply H|done]. Qed.

Lemma raw_id_free_size_variants (l : list SizeVariant) :
  raw_id_free (VList ((fun v => VDict (SizeVariant_dump v)) <$> l)) = true.
Proof.
  cbn [raw_id_free]. apply forallb_forall. intros x [v [<- _]]%in_map_iff.
  apply raw_id_free_dict. intros j y Hj. unfold SizeVariant_dump in Hj.
  repeat (apply lookup_insert_Some in Hj as [[_ <-]|[_ Hj]]; [done|]).
  by apply lookup_singleton_Some in Hj as [_ <-].
Qed.

Lemma Product_dump_raw_id_free (p : Product) (k : string) (v : value) :
  Product_dump p !! k = Some v -> raw_id_free v = true.
Proof.
  unfold Product_dump. cbn [list_to_map foldr fst snd uncurry].
  intros Hk.
  repeat (apply lookup_insert_Some in Hk as [[_ <-]|[_ Hk]];
          [first [ done
                 | apply raw_id_free_strs
                 | apply raw_id_free_urls
                 | apply raw_id_free_size_variants
                 | by apply raw_id_free_opt
                 | idtac ]|]);
    try by rewrite lookup_empty in Hk.
Qed.

Lemma raw_id_free_one_level (v : value) : raw_id_free v = true -> one_level v = true.
Proof.
  destruct v as [| | | | | | | |l|d]; try done.
  - cbn [raw_id_free one_level]. intros H. apply forallb_forall. intros x Hx.
    unfold id_or_free. rewrite (proj1 (forallb_forall _ _) H x Hx).
    apply orb_true_r.
  - intros H. apply (map_fold_andb id_or_free). intros j x Hj.
    unfold id_or_free. rewrite (proj1 (raw_id_free_dict d) H j x Hj).
    apply orb_true_r.
Qed.

(** X4: a product written from the Product schema is listed without any
    raw identifier, at any depth: its own identifier is the text [id]. *)
Theorem serialize_doc_product (o : ObjectId) (p : Product) :
  raw_id_free (VDict (serialize_doc env (to_dict (mkDoc o (Product_dump p))))) = true
  /\ serialize_doc env (to_dict (mkDoc o (Product_dump p))) !! "id"
     = Some (VStr (oid_hex o)).
Proof.
  split.
  - apply serialize_doc_raw_id_free. intros k v Hk Hne.
    apply raw_id_free_one_level.
    rewrite to_dict_other in Hk by done. by apply (Product_dump_raw_id_free p k).
  - destruct (serialize_doc_one_level env (to_dict (mkDoc o (Product_dump p))))
      as (_ & H & _).
    apply (H (VOid o)); [apply to_dict_id|done].
Qed.

(** ** Checkout, further *)

Lemma Order_new_inr (buyer_id listing_id : string) (amount : float) (currency : value)
    (pm : gmap string string) (shipping_option : string) (o : Order) :
  Order_new buyer_id listing_id amount currency pm shipping_option = inr o ->
  exists cur,
    currency = VStr cur
    /\ o = mkOrder buyer_id listing_id amount cur pm shipping_option
             "created" "held" None None
    /\ float_ge0 amount = true
    /\ String.length cur = 3%nat
    /\ in_literal shipping_option shipping_option_literal = true.
Proof.
  unfold Order_new. destruct currency as [| | | |cur| | | | |]; try discriminate.
  destruct (float_ge0 amount) eqn:Ha; [|discriminate].
  destruct (String.length cur =? 3)%nat eqn:Hl; [|discriminate].
  destruct (in_literal _ _) eqn:Hs; [|discriminate].
  intros [= <-]. exists cur. apply Nat.eqb_eq in Hl. by repeat split.
Qed.

(** A checkout that returns a response found its listing, passed the
    status guard, built its order, had it encoded, stored it and marked
    the listing. *)
Lemma checkout_success_inv (st st' : Store) (payload : CheckoutRequest) (resp : dict) :
  checkout env payload (Some st) = (Some st', inr resp) ->
  exists d price amount cur,
    resolves st (co_listing_id payload) d
    /\ to_dict d !! "price" = Some price
    /\ py_float env price = inr amount
    /\ default (VStr "USD") (to_dict d !! "currency") = VStr cur
    /\ st' = checked_out env d
               (mkOrder (co_buyer_id payload) (oid_hex (doc_id d)) amount cur
                  (py_str env <$> co_payment_method payload)
                  (co_shipping_option payload) "created" "held" None None) st
    /\ resp = order_confirmation env st
    /\ keys_ok (co_payment_method payload) = true.
Proof.
  intros H.
  destruct (ObjectId_is_valid (co_listing_id payload)) eqn:Hv;
    [destruct (find_first (has_id (ObjectId_of_str (co_listing_id payload)))
                 (coll st "listing")) as [d|] eqn:Hf|].
  - assert (resolves st (co_listing_id payload) d) as Hr by done.
    rewrite (checkout_resolved env st payload d Hr) in H.
    destruct (_ && _); [discriminate|].
    destruct (to_dict d !! "price") as [price|] eqn:Hprice; [|discriminate].
    destruct (py_float env price) as [e|amount] eqn:Hp; [discriminate|].
    destruct (Order_new _ _ _ _ _ _) as [e|order] eqn:Ho; [discriminate|].
    apply Order_new_inr in Ho as (cur & Hc & -> & _).
    cbn [order_payment_method] in H. rewrite keys_ok_fmap in H.
    destruct (keys_ok (co_payment_method payload)) eqn:Hk; [|discriminate].
    injection H as <- <-. exists d, price, amount, cur. by repeat split.
  - unfold checkout, with_db, mbind, M_bind in H.
    by rewrite find_listing_eq, Hv, Hf in H.
  - unfold checkout, with_db, mbind, M_bind in H.
    by rewrite find_listing_eq, Hv in H.
Qed.

Lemma resolves_checked_out (st : Store) (listing_id : string) (d : Document)
    (order : Order) :
  resolves st listing_id d ->
  resolves (checked_out env d order st) listing_id (mark_sold d).
Proof.
  intros Hr. pose proof (resolves_id _ _ _ Hr) as Hid. destruct Hr as [Hv Hf].
  split; [done|]. rewrite coll_checked_out_listing, <- Hid.
  apply find_first_update_same; [apply has_id_mark_sold|]. by rewrite Hid.
Qed.

(** X5: a checkout whose listing identifier is malformed, or names no
    stored listing, fails with 404 "Listing not found" and writes nothing. *)
Theorem checkout_not_found (st : Store) (payload : CheckoutRequest) :
  ObjectId_is_valid (co_listing_id payload) = false
  \/ find_first (has_id (ObjectId_of_str (co_listing_id payload)))
       (coll st "listing") = None ->
  checkout env payload (Some st)
  = (Some st, inl (HTTPException 404 "Listing not found")).
Proof.
  intros H. unfold checkout, with_db, mbind, M_bind.
  rewrite find_listing_eq.
  destruct H as [-> | H]; [done|].
  rewrite H. by destruct (ObjectId_is_valid _).
Qed.

(** X6: a [create_offer] or a [checkout] that raises, whatever it raises,
    has written nothing: the database is the one the request found. *)
Theorem offer_and_checkout_fail_clean :
  (forall (payload : OfferCreate) (st st' : Store) (e : exception),
     create_offer env payload (Some st) = (Some st', inl e) -> st' = st)
  /\ (forall (payload : CheckoutRequest) (st st' : Store) (e : exception),
        checkout env payload (Some st) = (Some st', inl e) -> st' = st).
Proof.
  split; intros payload st st' e.
  - apply create_offer_error_writes_nothing.
  - apply checkout_error_writes_nothing.
Qed.

(** X7: the order that a successful checkout stores holds the payment
    method of the request with every value turned into text: the same
    keys, and under each the [str] of the request's value. *)
Theorem checkout_payment_method_text (st st' : Store) (payload : CheckoutRequest)
    (resp : dict) :
  checkout env payload (Some st) = (Some st', inr resp) ->
  exists (o : Document) (pm : dict),
    coll st' "order" = coll st "order" ++ [o]
    /\ doc_body o !! "payment_method" = Some (VDict pm)
    /\ (forall k, pm !! k = (fun v => VStr (py_str env v)) <$> co_payment_method payload !! k)
    /\ doc_body o !! "buyer_id" = Some (VStr (co_buyer_id payload))
    /\ doc_body o !! "shipping_option" = Some (VStr (co_shipping_option payload)).
Proof.
  intros (d & price & amount & cur & Hr & _ & _ & _ & -> & _)%checkout_success_inv.
  eexists (mkDoc _ _), _. split; [apply coll_checked_out_order|].
  split; [reflexivity|]. split; [|split; reflexivity].
  intros k. cbn [order_payment_method]. rewrite !lookup_fmap.
  by destruct (co_payment_method payload !! k).
Qed.

(** X8: the listing identifier of a checkout is read without regard to
    letter case: two requests that differ only in the case of its
    hexadecimal digits have the same outcome on every database. *)
Theorem checkout_case_insensitive (payload : CheckoutRequest)
    (listing_id listing_id' : string) (db : option Store) :
  str_lower listing_id = str_lower listing_id' ->
  checkout env (with_listing_id listing_id payload) db
  = checkout env (with_listing_id listing_id' payload) db.
Proof.
  intros H.
  assert (find_listing listing_id = find_listing listing_id') as Hf.
  { unfold find_listing.
    rewrite <- (ObjectId_is_valid_lower listing_id), H, ObjectId_is_valid_lower.
    rewrite <- (ObjectId_of_str_lower listing_id), H, ObjectId_of_str_lower.
    reflexivity. }
  unfold checkout. cbn [with_listing_id co_listing_id co_buyer_id
                         co_payment_method co_shipping_option].
  by rewrite Hf.
Qed.

(** X9: [create_offer] does not look at the status of the listing: after a
    successful checkout of a listing, an offer on the same listing with a
    price that is not negative is stored as a pending offer. *)
Theorem create_offer_on_sold_listing (st st1 : Store) (payload : CheckoutRequest)
    (resp : dict) (offer : OfferCreate) :
  checkout env payload (Some st) = (Some st1, inr resp) ->
  oc_listing_id offer = co_listing_id payload ->
  float_ge0 (oc_offer_price offer) = true ->
  sold_in st1 (ObjectId_of_str (co_listing_id payload))
  /\ exists st2 o,
       create_offer env offer (Some st1)
       = (Some st2, inr {[ "status" := VStr "offer_created";
                           "offer_id" := VStr (oid_hex (doc_id o)) ]})
       /\ coll st2 "offer" = coll st1 "offer" ++ [o]
       /\ doc_body o !! "status" = Some (VStr "pending").
Proof.
  intros H Hid Hp.
  split; [by apply (checkout_success_sold env st st1 payload resp)|].
  apply checkout_success_inv in H as (d & price & amount & cur & Hr & _ & _ & _ & -> & _).
  eapply resolves_checked_out in Hr. rewrite <- Hid in Hr.
  rewrite (create_offer_succeeds env _ offer _ Hr Hp).
  eexists _, (mkDoc _ _). split; [reflexivity|].
  split; [apply coll_insert_one_eq|reflexivity].
Qed.

(** ** Products, further *)

Lemma insert_desc_length (field : string) (d : Document) (l : list Document) :
  length (insert_desc env field d l) = S (length l).
Proof.
  induction l as [|x l IH]; [done|]. cbn.
  destruct (bson_leb env _ _); cbn; by rewrite ?IH.
Qed.

Lemma sort_desc_length (field : string) (l : list Document) :
  length (sort_desc env field l) = length l.
Proof.
  induction l as [|x l IH]; [done|].
  unfold sort_desc in *. cbn [foldr]. by rewrite insert_desc_length, IH.
Qed.

(** What [list_products] returns when its filter is understood. *)
Lemma list_products_eq (a : ProductQuery) (st : Store) (k : list cclause) :
  compile_filter (filter_q a) = inr k ->
  list_products env a (Some st)
  = (Some st,
     inr {[ "total" := VInt (Z.of_nat (length (List.filter (matches k) (coll st "product"))));
            "page" := VInt (pq_page a);
            "per_page" := VInt (pq_per_page a);
            "items" :=
              VList ((fun d => VDict (serialize_doc env d))
                       <$> (to_dict
                              <$> take (Z.to_nat (pq_per_page a))
                                    (drop (Z.to_nat ((pq_page a - 1) * pq_per_page a))
                                       (sort_desc env "created_at"
                                          (List.filter (matches k) (coll st "product")))))) ]}).
Proof.
  intros Hk. unfold list_products, with_db, mbind, M_bind, count_documents, find_sorted.
  rewrite Hk. reflexivity.
Qed.

Lemma list_products_keeps_db (a : ProductQuery) (db : option Store) :
  (list_products env a db).1 = db.
Proof.
  destruct db as [st|]; [|done].
  destruct (compile_filter (filter_q a)) as [e|k] eqn:Hk.
  - unfold list_products, with_db, mbind, M_bind, count_documents.
    by rewrite Hk.
  - by rewrite (list_products_eq a st k Hk).
Qed.

(** X10: the route GET /products only reads: whatever the parameters,
    valid or not, whether a database is configured or not, and whether the
    handler returns or raises, the database is the one the request found. *)
Theorem list_products_reads_only (a : ProductQuery) (db : option Store) :
  (serve env (GET_products a) db).1 = db.
Proof.
  cbn [serve]. destruct (ProductQuery_valid a); [|done].
  apply list_products_keeps_db.
Qed.

(** X11: a page of [list_products] holds at most [per_page] products: with
    valid paging parameters the number of items returned is
    [min(per_page, max(0, total - (page - 1) * per_page))], and [total]
    counts all matches, whatever the page. *)
Theorem list_products_page_size (a : ProductQuery) (st : Store)
    (db' : option Store) (resp : dict) :
  ProductQuery_valid a = true ->
  list_products env a (Some st) = (db', inr resp) ->
  exists (total : Z) (items : list value),
    resp !! "total" = Some (VInt total)
    /\ resp !! "items" = Some (VList items)
    /\ resp !! "page" = Some (VInt (pq_page a))
    /\ resp !! "per_page" = Some (VInt (pq_per_page a))
    /\ (0 <= total)%Z
    /\ Z.of_nat (length items)
       = Z.min (pq_per_page a) (Z.max 0 (total - (pq_page a - 1) * pq_per_page a)).
Proof.
  intros Hv H.
  destruct (compile_filter (filter_q a)) as [e|k] eqn:Hk.
  { unfold list_products, with_db, mbind, M_bind, count_documents in H.
    by rewrite Hk in H. }
  rewrite (list_products_eq a st k Hk) in H. injection H as _ <-.
  eexists _, _. split; [reflexivity|]. split; [reflexivity|].
  split; [reflexivity|]. split; [reflexivity|]. split; [lia|].
  rewrite !length_fmap, length_take, length_drop, sort_desc_length.
  unfold ProductQuery_valid in Hv.
  apply andb_true_iff in Hv as [[H1 H2]%andb_true_iff H3].
  apply Z.leb_le in H1, H2, H3.
  assert (0 <= (pq_page a - 1) * pq_per_page a)%Z by nia.
  lia.
Qed.

(** X12: a text parameter that is absent or empty adds no filter: with none
    of [q], [brand], [condition], [size] given a value, [total] is the
    number of stored products. *)
Theorem list_products_no_filter (a : ProductQuery) (st : Store) :
  str_truthy (pq_q a) = false ->
  str_truthy (pq_brand a) = false ->
  str_truthy (pq_condition a) = false ->
  str_truthy (pq_size a) = false ->
  response_field "total" (list_products env a (Some st))
  = Some (VInt (Z.of_nat (length (coll st "product")))).
Proof.
  intros Hq Hb Hc Hs.
  assert (compile_filter (filter_q a) = inr []) as Hk.
  { unfold filter_q. by rewrite Hq, Hb, Hc, Hs. }
  rewrite (list_products_eq a st [] Hk). unfold response_field. cbn [snd].
  assert (List.filter (matches []) (coll st "product") = coll st "product") as ->.
  { induction (coll st "product") as [|x l IH]; [done|]. cbn. by rewrite IH. }
  reflexivity.
Qed.

(** ** Listings, further *)

Lemma create_listing_reads_dot_id (st : Store) (payload : ListingCreate)
    (e : Document) (v : value) :
  product_slug (lc_product payload) ≠ "" ->
  find_first (has_slug (product_slug (lc_product payload))) (coll st "product")
  = Some e ->
  to_dict e !! "._id" = Some v ->
  create_listing env payload (Some st)
  = list_product env payload (py_str env v) st.
Proof.
  intros Hs Hf Hn. rewrite <- list_product_eq.
  unfold create_listing, with_db. cbn zeta.
  rewrite Product_dump_slug. unfold opt_truthy, py_truthy.
  unfold mbind at 1, M_bind at 1.
  unfold str_eqb. rewrite bool_decide_eq_false_2 by done. cbn [negb].
  unfold mbind at 1, M_bind at 1, lift, getitem. rewrite Product_dump_slug.
  unfold find_one. cbn [compile_filter compile_clause compile_cond].
  rewrite (find_first_ext _ _ _ (matches_slug _)), Hf.
  cbn [fmap option_fmap option_map].
  rewrite to_dict_truthy. cbn [default id].
  rewrite Hn. rewrite bool_decide_eq_true_2 by eauto.
  unfold mbind at 1, M_bind at 1. done.
Qed.

(** [create_listing] is the product step followed, when that step
    returns, by the listing step. *)
Lemma create_listing_eq (st : Store) (payload : ListingCreate) :
  create_listing env payload (Some st)
  = match upsert_product env payload st with
    | (st1, inl e) => (Some st1, inl e)
    | (st1, inr product_id) => list_product env payload product_id st1
    end.
Proof.
  unfold upsert_product. cbn zeta. unfold str_eqb.
  destruct (decide (product_slug (lc_product payload) = "")) as [Hs|Hs].
  { rewrite (bool_decide_eq_true_2 _ Hs).
    rewrite create_listing_creates by (by left).
    unfold create_document. by destruct (bson_encode _). }
  rewrite (bool_decide_eq_false_2 _ Hs).
  destruct (find_first _ _) as [e|] eqn:Hf.
  - destruct (to_dict e !! "._id") as [v|] eqn:Hd.
    + by apply create_listing_reads_dot_id with e.
    + by apply create_listing_reuses.
  - rewrite create_listing_creates by (by right).
    unfold create_document. by destruct (bson_encode _).
Qed.


(** When the product step returns, the listings are untouched and the
    products are as they were or hold the payload's product as their last
    document. *)
Lemma upsert_product_inr (st st1 : Store) (payload : ListingCreate)
    (product_id : string) :
  upsert_product env payload st = (st1, inr product_id) ->
  coll st1 "listing" = coll st "listing"
  /\ (st1 = st
      \/ st1 = insert_one "product" (new_oid env st)
                 (Product_dump (lc_product payload)) st).
Proof.
  unfold upsert_product. cbn zeta. unfold create_document.
  destruct (str_eqb _ _).
  - destruct (bson_encode _); [discriminate|]. intros [= <- _].
    split; [by apply coll_insert_one_ne|by right].
  - destruct (find_first _ _) as [x|].
    + destruct (to_dict x !! "._id"); intros [= <- _]; by split; [|left].
    + destruct (bson_encode _); [discriminate|]. intros [= <- _].
      split; [by apply coll_insert_one_ne|by right].
Qed.

Lemma Listing_new_inr (seller_id product_id : string) (price : float)
    (listing_type : string) (l : Listing) :
  Listing_new seller_id product_id price listing_type = inr l ->
  l = mkListing seller_id product_id price listing_type "USD" "active" None None
  /\ float_ge0 price = true
  /\ in_literal listing_type listing_type_literal = true.
Proof.
  unfold Listing_new.
  destruct (float_ge0 price); [|discriminate].
  destruct (in_literal _ _); [|discriminate].
  by intros [= <-].
Qed.

(** A [create_listing] that returns a response has stored the listing
    built from the payload after the product step. *)
Lemma create_listing_success_inv (st st' : Store) (payload : ListingCreate)
    (resp : dict) :
  create_listing env payload (Some st) = (Some st', inr resp) ->
  exists (st1 : Store) (product_id : string),
    upsert_product env payload st = (st1, inr product_id)
    /\ st' = insert_one "listing" (new_oid env st1)
               (Listing_dump (new_listing payload product_id)) st1
    /\ resp = {[ "status" := VStr "listing_created";
                 "listing_id" := VStr (oid_hex (new_oid env st1));
                 "product_id" := VStr product_id ]}
    /\ float_ge0 (lc_price payload) = true
    /\ in_literal (lc_listing_type payload) listing_type_literal = true.
Proof.
  rewrite create_listing_eq.
  destruct (upsert_product env payload st) as [st1 [e|product_id]]; [discriminate|].
  unfold list_product.
  destruct (Listing_new _ _ _ _) as [e|l] eqn:Hl; [discriminate|].
  apply Listing_new_inr in Hl as (-> & Hp & Ht).
  intros [= <- <-]. exists st1, product_id. by repeat split.
Qed.

(** X13: every listing that [create_listing] stores is appended to the
    listings with status "active", currency "USD", and the seller, price
    and listing type of the payload; its product identifier and its own
    identifier are the ones the response returns. *)
Theorem create_listing_stores_active (st st' : Store) (payload : ListingCreate)
    (resp : dict) :
  create_listing env payload (Some st) = (Some st', inr resp) ->
  exists l : Document,
    coll st' "listing" = coll st "listing" ++ [l]
    /\ doc_body l !! "status" = Some (VStr "active")
    /\ doc_body l !! "currency" = Some (VStr "USD")
    /\ doc_body l !! "price" = Some (VFloat (lc_price payload))
    /\ doc_body l !! "seller_id" = Some (VStr (lc_seller_id payload))
    /\ doc_body l !! "listing_type" = Some (VStr (lc_listing_type payload))
    /\ resp !! "listing_id" = Some (VStr (oid_hex (doc_id l)))
    /\ resp !! "product_id" = doc_body l !! "product_id"
    /\ float_ge0 (lc_price payload) = true
    /\ in_literal (lc_listing_type payload) listing_type_literal = true.
Proof.
  intros (st1 & product_id & Hu & -> & -> & Hp & Ht)%create_listing_success_inv.
  apply upsert_product_inr in Hu as [Hl _].
  eexists (mkDoc _ _).
  split; [by rewrite coll_insert_one_eq, Hl|].
  repeat split; done.
Qed.


Lemma find_first_None_app (p : Document -> bool) (l : list Document) (d : Document) :
  find_first p l = None -> p d = true -> find_first p (l ++ [d]) = Some d.
Proof.
  induction l as [|x l IH]; cbn; [by intros _ ->|].
  destruct (p x); [done|]. apply IH.
Qed.

(** The listing just created is the one its identifier resolves to, when
    the generated identifier is printed as 24 hexadecimal digits in lower
    case and was not in use among the listings. *)
Lemma new_listing_resolves (st st' : Store) (payload : ListingCreate) (resp : dict)
    (listing_id : string) :
  create_listing env payload (Some st) = (Some st', inr resp) ->
  resp !! "listing_id" = Some (VStr listing_id) ->
  hex24 listing_id = true ->
  str_lower listing_id = listing_id ->
  find_first (has_id (ObjectId_of_str listing_id)) (coll st "listing") = None ->
  exists product_id,
    resolves st' listing_id
      (mkDoc (ObjectId_of_str listing_id)
         (Listing_dump (new_listing payload product_id)))
    /\ float_ge0 (lc_price payload) = true.
Proof.
  intros (st1 & product_id & Hu & -> & -> & Hp & _)%create_listing_success_inv
         Hid [Hv Ho]%hex24_valid Hl Hf.
  apply upsert_product_inr in Hu as [Hlist _].
  rewrite lookup_insert_ne, lookup_insert_eq in Hid by done.
  injection Hid as Hid.
  exists product_id. split; [|done]. split; [done|].
  rewrite coll_insert_one_eq, Hlist.
  assert (new_oid env st1 = ObjectId_of_str listing_id) as ->.
  { rewrite Ho, Hl, <- Hid. by destruct (new_oid env _). }
  apply find_first_None_app; [done|]. unfold has_id. by apply bool_decide_eq_true.
Qed.


(** X16: a listing that [create_listing] has just stored takes offers: an
    offer with the listing identifier of the response and a price that is
    not negative is stored.  The generated identifier must be well formed
    (24 hexadecimal digits), in lower case, and not in use among the
    listings. *)
Theorem create_listing_then_offer (st st1 : Store) (payload : ListingCreate)
    (resp : dict) (listing_id : string) (offer : OfferCreate) :
  create_listing env payload (Some st) = (Some st1, inr resp) ->
  resp !! "listing_id" = Some (VStr listing_id) ->
  hex24 listing_id = true ->
  str_lower listing_id = listing_id ->
  find_first (has_id (ObjectId_of_str listing_id)) (coll st "listing") = None ->
  oc_listing_id offer = listing_id ->
  float_ge0 (oc_offer_price offer) = true ->
  exists (st2 : Store) (o : Document),
    create_offer env offer (Some st1)
    = (Some st2, inr {[ "status" := VStr "offer_created";
                        "offer_id" := VStr (oid_hex (doc_id o)) ]})
    /\ coll st2 "offer" = coll st1 "offer" ++ [o]
    /\ doc_body o !! "listing_id" = Some (VStr listing_id)
    /\ doc_body o !! "offer_price" = Some (VFloat (oc_offer_price offer)).
Proof.
  intros Hc Hid Hv Hl Hf Hreq Hp.
  destruct (new_listing_resolves st st1 payload resp listing_id Hc Hid Hv Hl Hf)
    as (product_id & Hr & _).
  rewrite <- Hreq in Hr.
  rewrite (create_offer_succeeds env _ offer _ Hr Hp).
  eexists _, (mkDoc _ _). split; [reflexivity|].
  split; [apply coll_insert_one_eq|]. rewrite <- Hreq. split; reflexivity.
Qed.

(** ** What any run of requests keeps *)

Lemma api_only_ret {A : Type} (x : A) : api_only (mret x).
Proof. intros st. exists st, (inr x). split; [done|apply rtc_refl]. Qed.

Lemma api_only_raise {A : Type} (e : exception) : api_only (@raise A e).
Proof. intros st. exists st, (inl e). split; [done|apply rtc_refl]. Qed.

Lemma api_only_lift {A : Type} (r : result A) : api_only (lift r).
Proof. intros st. exists st, r. split; [done|apply rtc_refl]. Qed.

Lemma api_only_bind {A B : Type} (m : M A) (f : A -> M B) :
  api_only m -> (forall x, api_only (f x)) -> api_only (m ≫= f).
Proof.
  intros Hm Hf st. unfold mbind, M_bind.
  destruct (Hm st) as (st1 & r & -> & H1). destruct r as [e|x].
  - by exists st1, (inl e).
  - destruct (Hf x st1) as (st2 & r & -> & H2).
    exists st2, r. split; [done|]. by etrans.
Qed.

Lemma api_only_bind_lift {A B : Type} (r : result A) (f : A -> M B) :
  (forall x, r = inr x -> api_only (f x)) -> api_only (lift r ≫= f).
Proof.
  intros Hf st. unfold mbind, M_bind, lift. destruct r as [e|x].
  - exists st, (inl e). split; [done|apply rtc_refl].
  - by apply Hf.
Qed.

Lemma api_only_find_one (name : string) (f : list clause) :
  api_only (find_one name f).
Proof.
  intros st. unfold find_one.
  destruct (compile_filter f); eexists _, _; (split; [done|apply rtc_refl]).
Qed.

Lemma api_only_find_listing (listing_id : string) : api_only (find_listing listing_id).
Proof.
  unfold find_listing. destruct (ObjectId_is_valid listing_id).
  - apply api_only_find_one.
  - apply api_only_ret.
Qed.

Lemma api_only_count_documents (name : string) (f : list clause) :
  api_only (count_documents name f).
Proof.
  intros st. unfold count_documents.
  destruct (compile_filter f); eexists _, _; (split; [done|apply rtc_refl]).
Qed.

Lemma api_only_find_sorted (name : string) (f : list clause) (field : string)
    (n m : Z) :
  api_only (find_sorted env name f field n m).
Proof.
  intros st. unfold find_sorted.
  destruct (compile_filter f); eexists _, _; (split; [done|apply rtc_refl]).
Qed.

Lemma api_only_create_document (name : string) (data : dict) :
  name ≠ "listing" -> api_only (create_document env name data).
Proof.
  intros Hne st. unfold create_document. destruct (bson_encode data).
  - eexists _, _. split; [done|apply rtc_refl].
  - eexists _, _. split; [done|]. by apply rtc_once, api_insert.
Qed.

Lemma api_only_create_listing_document (l : Listing) :
  listing_status l = "active" ->
  api_only (create_document env "listing" (Listing_dump l)).
Proof.
  intros Hs st. unfold create_document. destruct (bson_encode _).
  - eexists _, _. split; [done|apply rtc_refl].
  - eexists _, _. split; [done|]. by apply rtc_once, api_list.
Qed.

Lemma api_only_mark_sold (f : list clause) :
  api_only (update_one "listing" f {[ "status" := VStr "sold" ]}).
Proof.
  intros st. unfold update_one.
  destruct (compile_filter f) as [e|k].
  - eexists _, _. split; [done|apply rtc_refl].
  - eexists _, _. split; [done|]. apply rtc_once, (api_sold (matches k)).
Qed.

Ltac api_only_step :=
  lazymatch goal with
  | |- api_only (mret _) => apply api_only_ret
  | |- api_only (raise _) => apply api_only_raise
  | |- api_only (mbind _ (lift (Listing_new _ _ _ _))) =>
      apply api_only_bind_lift; intros ? [-> _]%Listing_new_inr
  | |- api_only (lift _) => apply api_only_lift
  | |- api_only (find_one _ _) => apply api_only_find_one
  | |- api_only (find_listing _) => apply api_only_find_listing
  | |- api_only (count_documents _ _) => apply api_only_count_documents
  | |- api_only (find_sorted _ _ _ _ _ _) => apply api_only_find_sorted
  | |- api_only (create_document _ "listing" (Listing_dump _)) =>
      apply api_only_create_listing_document; reflexivity
  | |- api_only (create_document _ _ _) =>
      apply api_only_create_document; discriminate
  | |- api_only (update_one _ _ _) => apply api_only_mark_sold
  | |- api_only (mbind _ _) => apply api_only_bind; [|intros ?]
  | |- api_only (if ?b then _ else _) => destruct b
  | |- api_only (let _ := _ in _) => cbn zeta
  end.

Lemma with_db_api {A : Type} (body : M A) (st : Store) :
  api_only body ->
  exists st', (with_db body (Some st)).1 = Some st' /\ rtc api_step st st'.
Proof.
  intros H. destruct (H st) as (st' & r & E & Hw).
  exists st'. split; [|done]. unfold with_db. by rewrite E.
Qed.

Lemma serve_api (r : request) (st : Store) :
  exists st', (serve env r (Some st)).1 = Some st' /\ rtc api_step st st'.
Proof.
  destruct r as [a | payload | payload | payload]; cbn [serve].
  - destruct (ProductQuery_valid a); [|exists st; split; [done|apply rtc_refl]].
    apply with_db_api. repeat api_only_step.
  - destruct (ListingCreate_valid payload); [|exists st; split; [done|apply rtc_refl]].
    apply with_db_api. repeat api_only_step.
  - apply with_db_api. repeat api_only_step.
  - apply with_db_api. repeat api_only_step.
Qed.

Lemma serve_all_api (rs : list request) (st : Store) :
  exists st', serve_all env rs (Some st) = Some st' /\ rtc api_step st st'.
Proof.
  revert st. induction rs as [|r rs IH]; intros st.
  - exists st. split; [done|apply rtc_refl].
  - destruct (serve_api r st) as (st1 & E & H1).
    rewrite serve_all_cons, E.
    destruct (IH st1) as (st2 & E2 & H2).
    exists st2. split; [done|]. by etrans.
Qed.

Lemma api_step_append_only (name : string) (st st' : Store) :
  name ≠ "listing" -> api_step st st' -> coll st name `prefix_of` coll st' name.
Proof.
  intros Hne [name0 oid data st0 _ | oid l st0 _ | q st0].
  - destruct (decide (name0 = name)) as [-> | Hn].
    + rewrite coll_insert_one_eq. by apply prefix_app_r.
    + by rewrite coll_insert_one_ne.
  - by rewrite coll_insert_one_ne.
  - unfold coll at 2. by rewrite lookup_insert_ne.
Qed.

Lemma api_steps_append_only (name : string) (st st' : Store) :
  name ≠ "listing" -> rtc api_step st st' -> coll st name `prefix_of` coll st' name.
Proof.
  intros Hne. induction 1 as [|st st1 st2 H1 _ IH]; [done|].
  etrans; [|exact IH]. by apply api_step_append_only.
Qed.

(** X17: products, offers and orders are only ever appended: after any run
    of requests to the four routes, each of these collections starts with
    the documents it held before, unchanged and in their order. *)
Theorem collections_append_only (rs : list request) (st : Store) :
  exists st',
    serve_all env rs (Some st) = Some st'
    /\ coll st "product" `prefix_of` coll st' "product"
    /\ coll st "offer" `prefix_of` coll st' "offer"
    /\ coll st "order" `prefix_of` coll st' "order".
Proof.
  destruct (serve_all_api rs st) as (st' & E & H).
  exists st'. split; [done|].
  repeat split; by apply api_steps_append_only.
Qed.

Lemma mark_sold_idemp (d : Document) : mark_sold (mark_sold d) = mark_sold d.
Proof.
  unfold mark_sold, set_fields. cbn [doc_id doc_body]. f_equal.
  by rewrite (assoc_L (∪)), (idemp_L (∪)).
Qed.

Lemma kept_or_sold_trans (d d' d'' : Document) :
  kept_or_sold d d' -> kept_or_sold d' d'' -> kept_or_sold d d''.
Proof.
  unfold kept_or_sold. intros [-> | ->] [-> | ->]; auto.
  right. apply mark_sold_idemp.
Qed.

Lemma update_first_kept_or_sold (q : Document -> bool) (l : list Document) :
  Forall2 kept_or_sold l (update_first q mark_sold l).
Proof.
  induction l as [|x l IH]; cbn; [constructor|].
  destruct (q x).
  - constructor; [by right|]. apply Forall_Forall2_diag, Forall_forall. by left.
  - constructor; [by left|done].
Qed.

Lemma listings_evolve_step (l : list Document) (st st' : Store) :
  listings_evolve l (coll st "listing") -> api_step st st' ->
  listings_evolve l (coll st' "listing").
Proof.
  intros (l1 & more & E & H) Hstep.
  destruct Hstep as [name oid data st Hne | oid x st _ | q st].
  - rewrite coll_insert_one_ne by done. by exists l1, more.
  - rewrite coll_insert_one_eq, E. exists l1, (more ++ [mkDoc oid (Listing_dump x)]).
    split; [by rewrite (assoc_L (++))|done].
  - rewrite coll_insert_eq, E.
    pose proof (update_first_kept_or_sold q (l1 ++ more)) as Hu.
    apply Forall2_app_inv_l in Hu as (k1 & k2 & Hk1 & _ & ->).
    exists k1, k2. split; [done|].
    eapply Forall2_trans; [|exact H|exact Hk1]. apply kept_or_sold_trans.
Qed.

(** X18: a stored listing is never removed, moved or rewritten, except that
    its status may be set to "sold": after any run of requests, every
    listing stored before is at its place, as it was or marked sold, and
    new listings come after them. *)
Theorem listings_kept_or_sold (rs : list request) (st : Store) :
  exists st',
    serve_all env rs (Some st) = Some st'
    /\ listings_evolve (coll st "listing") (coll st' "listing").
Proof.
  destruct (serve_all_api rs st) as (st' & E & H).
  exists st'. split; [done|].
  apply (rtc_ind_r (R := api_step)
           (fun z => listings_evolve (coll st "listing") (coll z "listing")) st);
    [|intros st1 st2 _ Hstep IH|exact H].
  - exists (coll st "listing"), []. split; [by rewrite app_nil_r|].
    apply Forall_Forall2_diag, Forall_forall. by left.
  - by apply (listings_evolve_step _ st1).
Qed.

Lemma mark_sold_active_or_sold (d : Document) : active_or_sold (mark_sold d).
Proof.
  right. unfold mark_sold, set_fields. cbn [doc_body].
  apply lookup_union_Some_l. by rewrite lookup_singleton_eq.
Qed.

Lemma api_step_statuses (st st' : Store) :
  api_step st st' ->
  Forall active_or_sold (coll st "listing") ->
  Forall active_or_sold (coll st' "listing").
Proof.
  intros Hstep H. destruct Hstep as [name oid data st Hne | oid x st Hs | q st].
  - by rewrite coll_insert_one_ne.
  - rewrite coll_insert_one_eq. apply Forall_app. split; [done|].
    apply Forall_singleton. left. cbn [doc_body]. destruct x. cbn in Hs. by subst.
  - rewrite coll_insert_eq. induction H as [|d l Hd Hl IH]; cbn; [constructor|].
    destruct (q d); constructor; auto using mark_sold_active_or_sold.
Qed.

(** X19: the routes never give a listing a status other than "active" and
    "sold": when every stored listing has one of the two, so has every
    stored listing after any run of requests. *)
Theorem listing_statuses_invariant (st : Store) (rs : list request) :
  Forall active_or_sold (coll st "listing") ->
  exists st',
    serve_all env rs (Some st) = Some st'
    /\ Forall active_or_sold (coll st' "listing").
Proof.
  intros H0. destruct (serve_all_api rs st) as (st' & E & H).
  exists st'. split; [done|].
  apply (rtc_ind_r (R := api_step)
           (fun z => Forall active_or_sold (coll z "listing")) st);
    [done|intros st1 st2 _ Hstep IH|exact H].
  by apply (api_step_statuses st1).
Qed.

(** ** The product filter on products written from the schema *)

Lemma regex_parse_literals (cs : list ascii) :
  plain cs = true -> regex_parse cs = Some (literal <$> cs).
Proof.
  induction cs as [|c cs IH]; [done|].
  intros (H1 & H2 & H3 & H4 & H5 & Hcs)%plain_cons.
  cbn [regex_parse]. rewrite H1, H2, H3, H5.
  specialize (IH Hcs).
  destruct cs as [|c' cs]; [done|].
  apply plain_cons in Hcs as (_ & _ & _ & H4' & _ & _).
  rewrite H4'. by rewrite IH.
Qed.

Lemma match_here_literals (cs : list ascii) (b : bool) (text : list ascii) :
  match_here true (literal <$> cs) b text = ci_prefix cs text.
Proof.
  revert b text. induction cs as [|c cs IH]; intros b text; [done|].
  cbn [fmap list_fmap match_here literal ci_prefix atom_matches].
  destruct text as [|x text]; [done|]. by rewrite (IH false text).
Qed.

Lemma search_from_literals (cs : list ascii) (b : bool) (text : list ascii) :
  search_from true (literal <$> cs) b text = ci_contains cs text.
Proof.
  revert b. induction text as [|x text IH]; intros b; cbn [search_from ci_contains].
  - by rewrite match_here_literals.
  - by rewrite match_here_literals, IH.
Qed.

Lemma search_clause_plain (q : string) :
  plain (list_ascii_of_string q) = true ->
  compile_cond (CRegex q "i") = inr (KRegex true (literal <$> list_ascii_of_string q))
  /\ forall y : string,
       holds (KRegex true (literal <$> list_ascii_of_string q)) (VStr y)
       = str_contains_ci q y.
Proof.
  intros Hp. split.
  - unfold compile_cond.
    replace (str_eqb "i" "") with false by done.
    replace (str_eqb "i" "i") with true by done. cbn [orb negb].
    by rewrite regex_parse_literals.
  - intros y. unfold holds. cbn [holds_scalar]. rewrite orb_false_r.
    apply search_from_literals.
Qed.

Lemma compile_filter_app (f g : list clause) (k j : list cclause) :
  compile_filter f = inr k -> compile_filter g = inr j ->
  compile_filter (f ++ g) = inr (k ++ j).
Proof.
  revert k. induction f as [|c f IH]; intros k.
  - by intros [= <-].
  - cbn [compile_filter app]. destruct (compile_clause c) as [e|kc]; [done|].
    destruct (compile_filter f) as [e|kf]; [done|].
    intros [= <-] Hg. by rewrite (IH kf eq_refl Hg).
Qed.

Lemma compile_filter_q (a : ProductQuery) :
  plain (list_ascii_of_string (the_str (pq_q a))) = true ->
  plain (list_ascii_of_string (the_str (pq_brand a))) = true ->
  compile_filter (filter_q a) = inr (compiled_filter_q a).
Proof.
  intros Hq Hb. unfold filter_q, compiled_filter_q.
  destruct (search_clause_plain _ Hq) as [Hcq _].
  destruct (brand_clause_plain _ Hb) as [Hcb _].
  repeat apply compile_filter_app.
  - destruct (str_truthy (pq_q a)); [|done].
    cbn [compile_filter compile_clause compile_alts]. by rewrite Hcq.
  - destruct (str_truthy (pq_brand a)); [|done].
    cbn [compile_filter compile_clause]. by rewrite Hcb.
  - by destruct (str_truthy (pq_condition a)).
  - by destruct (str_truthy (pq_size a)).
Qed.

Lemma field_holds_text (d : Document) (k : string) (y : string) (c : ccond) :
  to_dict d !! k = Some (VStr y) ->
  field_holds (to_dict d) ([k], c) = holds c (VStr y).
Proof.
  intros H. unfold field_holds. cbn [fst snd path_values]. rewrite H.
  cbn [existsb]. by rewrite orb_false_r.
Qed.

Lemma holds_eq_text (x c : string) : holds (KEq (VStr c)) (VStr x) = str_eqb x c.
Proof. unfold holds. cbn. by rewrite orb_false_r. Qed.

Lemma field_holds_sizes (o : ObjectId) (p : Product) (size : string) :
  field_holds (to_dict (mkDoc o (Product_dump p)))
    (["size_variants"; "size"], KEq (VStr size))
  = existsb (fun v => str_eqb (sv_size v) size) (product_size_variants p).
Proof.
  unfold field_holds. cbn [fst snd path_values].
  rewrite to_dict_other by done. cbn [doc_body].
  replace (Product_dump p !! "size_variants")
    with (Some (VList ((fun v => VDict (SizeVariant_dump v)) <$> product_size_variants p)))
    by reflexivity.
  induction (product_size_variants p) as [|v l IH]; [done|].
  cbn [fmap list_fmap flat_map existsb app].
  replace (SizeVariant_dump v !! "size") with (Some (VStr (sv_size v))) by reflexivity.
  cbn [app existsb]. by rewrite holds_eq_text, IH.
Qed.

Lemma matches_selected (a : ProductQuery) (o : ObjectId) (p : Product) :
  plain (list_ascii_of_string (the_str (pq_q a))) = true ->
  plain (list_ascii_of_string (the_str (pq_brand a))) = true ->
  matches (compiled_filter_q a) (mkDoc o (Product_dump p)) = selected a p.
Proof.
  intros Hq Hb. unfold matches, compiled_filter_q, selected.
  destruct (search_clause_plain _ Hq) as [_ Hsq].
  destruct (brand_clause_plain _ Hb) as [_ Hsb].
  set (d := mkDoc o (Product_dump p)).
  assert (to_dict d !! "title" = Some (VStr (product_title p))) as Ht
    by (by rewrite to_dict_other).
  assert (to_dict d !! "brand" = Some (VStr (product_brand p))) as Hbr
    by (by rewrite to_dict_other).
  assert (to_dict d !! "model" = Some (VStr (product_model p))) as Hm
    by (by rewrite to_dict_other).
  assert (to_dict d !! "condition" = Some (VStr (product_condition p))) as Hc
    by (by rewrite to_dict_other).
  rewrite !forallb_app. rewrite <- !andb_assoc. repeat f_equal.
  - destruct (str_truthy (pq_q a)); [|done].
    cbn [forallb clause_holds existsb].
    rewrite (field_holds_text d _ _ _ Ht), (field_holds_text d _ _ _ Hbr),
      (field_holds_text d _ _ _ Hm), !Hsq.
    by rewrite !orb_false_r, andb_true_r, orb_assoc.
  - destruct (str_truthy (pq_brand a)); [|done].
    cbn [forallb clause_holds].
    by rewrite (field_holds_text d _ _ _ Hbr), Hsb, andb_true_r.
  - destruct (str_truthy (pq_condition a)); [|done].
    cbn [forallb clause_holds].
    by rewrite (field_holds_text d _ _ _ Hc), holds_eq_text, andb_true_r.
  - destruct (str_truthy (pq_size a)); [|done].
    cbn [forallb clause_holds]. subst d.
    by rewrite field_holds_sizes, andb_true_r.
Qed.

Lemma filter_stored_products (f : Document -> bool) (g : Product -> bool)
    (ps : list (ObjectId * Product)) :
  (forall o p, f (mkDoc o (Product_dump p)) = g p) ->
  length (List.filter f (stored_products ps))
  = length (List.filter (fun op => g op.2) ps).
Proof.
  intros H. unfold stored_products.
  induction ps as [|[o p] ps IH]; [done|].
  cbn [fmap list_fmap List.filter fst snd]. rewrite H.
  destruct (g p); cbn [length]; by rewrite IH.
Qed.

(** X20: on products written from the Product schema, with ASCII texts
    and with [q] and [brand] free of regex syntax, [total] counts exactly
    the products that meet every parameter given: [q] occurs in the title,
    brand or model without regard to case; the brand equals [brand] without
    regard to case (a final newline in the stored brand is overlooked); the
    condition equals [condition]; some size variant has the size [size]. *)
Theorem list_products_total_selected (a : ProductQuery) (st : Store)
    (ps : list (ObjectId * Product)) :
  plain (list_ascii_of_string (the_str (pq_q a))) = true ->
  plain (list_ascii_of_string (the_str (pq_brand a))) = true ->
  ascii_text (the_str (pq_q a)) = true ->
  ascii_text (the_str (pq_brand a)) = true ->
  Forall (fun op => ascii_product op.2 = true) ps ->
  coll st "product" = stored_products ps ->
  response_field "total" (list_products env a (Some st))
  = Some (VInt (Z.of_nat (length (List.filter (fun op => selected a op.2) ps)))).
Proof.
  intros Hq Hb _ _ _ Hps.
  rewrite (list_products_eq a st _ (compile_filter_q a Hq Hb)).
  unfold response_field. cbn [snd]. rewrite Hps.
  rewrite (filter_stored_products _ (selected a) ps); [reflexivity|].
  intros o p. by apply matches_selected.
Qed.

(** ** Two listings of one product *)



(** ** Identifiers in responses *)






(** ** What the encoder refuses *)

(** X23: a product with an image or a video cannot be listed for the first
    time.  When the handler sends such a product to the store (its slug is
    empty or names no stored product), the encoder of the driver refuses
    the URL objects that [model_dump] left in it: the handler raises
    [InvalidDocument] (the integers of the product being within 64 bits)
    and nothing is written, neither product nor listing. *)
Theorem create_listing_pictured_product (st : Store) (payload : ListingCreate) :
  product_slug (lc_product payload) = ""
  \/ find_first (has_slug (product_slug (lc_product payload))) (coll st "product")
     = None ->
  Product_pictured (lc_product payload) = true ->
  Product_ints_ok (lc_product payload) = true ->
  create_listing env payload (Some st) = (Some st, inl InvalidDocument).
Proof.
  intros Hs Hp Hi. rewrite (create_listing_refused env st payload Hs Hp).
  by rewrite Hi.
Qed.

(** X24: a checkout whose payment method has a key with a NUL character
    stores nothing.  On a listing that is active (or has no status) and
    holds a price and currency the Order schema accepts, with a shipping
    option of the schema, the order is built, the encoder of the driver
    refuses that key, and the handler raises [InvalidDocument] with no
    order stored and the listing as it was. *)
Theorem checkout_nul_key (st : Store) (payload : CheckoutRequest)
    (d : Document) (p : float) (cur : string) :
  resolves st (co_listing_id payload) d ->
  to_dict d !! "status" = None \/ to_dict d !! "status" = Some (VStr "active") ->
  to_dict d !! "price" = Some (VFloat p) ->
  float_ge0 p = true ->
  default (VStr "USD") (to_dict d !! "currency") = VStr cur ->
  String.length cur = 3%nat ->
  in_literal (co_shipping_option payload) shipping_option_literal = true ->
  keys_ok (co_payment_method payload) = false ->
  checkout env payload (Some st) = (Some st, inl InvalidDocument).
Proof.
  intros Hr Hs Hp Hge Hc Hlen Hship Hkeys.
  rewrite (checkout_resolved env _ _ _ Hr), Hp, Hc. cbn [py_float].
  assert (opt_truthy (to_dict d !! "status")
          && negb (value_is_str (default VNone (to_dict d !! "status")) "active")
          = false) as -> by (by destruct Hs as [-> | ->]).
  unfold Order_new. rewrite Hge, Hship.
  apply Nat.eqb_eq in Hlen. rewrite Hlen. cbn [andb order_payment_method].
  by rewrite keys_ok_fmap, Hkeys.
Qed.

End MoreProperties.

(** * The properties at concrete requests *)

Ltac by_eval := vm_compute; reflexivity.



(** C2 does not hold of every explicit status: here the stored listing
    has the status "", a value that is not "active", and the checkout goes
    through: an order is stored and the listing is marked sold. *)
Lemma checkout_empty_status_sells :
  resolves (listing_store "USD" "") "aaaaaaaaaaaaaaaaaaaaaaaa" (a_listing "USD" "")
  /\ to_dict (a_listing "USD" "") !! "status" = Some (VStr "")
  /\ response_field "status"
       (checkout counting_env (a_checkout "aaaaaaaaaaaaaaaaaaaaaaaa" "standard")
          (Some (listing_store "USD" "")))
     = Some (VStr "order_confirmation")
  /\ length (stored "order"
               (checkout counting_env (a_checkout "aaaaaaaaaaaaaaaaaaaaaaaa" "standard")
                  (Some (listing_store "USD" ""))))
     = 1%nat
  /\ stored "listing"
       (checkout counting_env (a_checkout "aaaaaaaaaaaaaaaaaaaaaaaa" "standard")
          (Some (listing_store "USD" "")))
     = [mark_sold (a_listing "USD" "")].
Proof. split; [split|split; [|split; [|split]]]; by_eval. Qed.


(** C3 at concrete requests: after the first checkout an offer, a new
    listing and a product search are served; the second checkout fails. *)
Lemma checkout_twice_witness :
  checkout counting_env (a_checkout "aaaaaaaaaaaaaaaaaaaaaaaa" "express")
    (serve_all counting_env requests_between (Some sold_store))
  = (serve_all counting_env requests_between (Some sold_store),
     inl (HTTPException 400 "Listing not available")).
Proof.
  apply (checkout_twice counting_env (listing_store "USD" "active") sold_store
           (a_checkout "aaaaaaaaaaaaaaaaaaaaaaaa" "standard")
           (a_checkout "aaaaaaaaaaaaaaaaaaaaaaaa" "express")
           (match first_checkout.2 with inr r => r | inl _ => ∅ end)
           requests_between).
  - by_eval.
  - reflexivity.
Defined.



(** C5 at concrete requests: a text that is no identifier, and an
    identifier that names no listing. *)
Lemma create_offer_not_found_witness :
  create_offer counting_env (mkOfferCreate "buyer-1" "not-an-identifier" 100)
    (Some (listing_store "USD" "active"))
  = (Some (listing_store "USD" "active"), inl (HTTPException 404 "Listing not found"))
  /\ create_offer counting_env (mkOfferCreate "buyer-1" "cccccccccccccccccccccccc" 100)
       (Some (listing_store "USD" "active"))
     = (Some (listing_store "USD" "active"), inl (HTTPException 404 "Listing not found")).
Proof.
  split.
  - apply (create_offer_not_found counting_env). left. by_eval.
  - apply (create_offer_not_found counting_env). right. by_eval.
Defined.

(** C6 at a concrete request: the body, with a product without pictures,
    passes the request model; the listing type is none of the schema's;
    the handler raises the schema's validation error, and the product it
    wrote first stays stored. *)
Lemma create_listing_bad_type_keeps_product :
  ListingCreate_valid (mkListingCreate "seller-1" air_max 120 "bogus") = true
  /\ in_literal "bogus" listing_type_literal = false
  /\ serve counting_env (POST_listings (mkListingCreate "seller-1" air_max 120 "bogus"))
       (Some ∅)
     = (Some (insert_one "product" (mkOid "000000000000000000000000")
                (Product_dump air_max) ∅),
        inl (ValidationError "Listing"))
  /\ coll (insert_one "product" (mkOid "000000000000000000000000")
             (Product_dump air_max) ∅) "product"
     = [mkDoc (mkOid "000000000000000000000000") (Product_dump air_max)].
Proof. repeat split; by_eval. Qed.

(** C7 at a concrete request: the brand parameter "n.ke" is not the stored
    brand "Nike" in any letter case, yet the product is counted and
    returned, the dot being read as the regex wildcard. *)
Lemma list_products_brand_is_a_pattern :
  ci_eqb_nl (list_ascii_of_string "n.ke") (list_ascii_of_string "Nike") = false
  /\ response_field "total"
       (list_products counting_env (brand_query "n.ke")
          (Some (product_store air_max)))
     = Some (VInt 1)
  /\ response_field "items"
       (list_products counting_env (brand_query "n.ke")
          (Some (product_store air_max)))
     = Some (VList [VDict (serialize_doc counting_env
                             (to_dict (mkDoc oid_b (Product_dump air_max))))]).
Proof. repeat split; by_eval. Qed.


(** C9 at a concrete request: the listing is in EUR, the offer in USD. *)
Lemma create_offer_defaults_witness :
  exists o : Document,
    coll (insert_one "offer" (mkOid "000000000000000000000001")
            (Offer_dump (mkOffer "buyer-1" "aaaaaaaaaaaaaaaaaaaaaaaa" 100
                           "USD" "pending" None None))
            (listing_store "EUR" "active")) "offer" = [o]
    /\ doc_body o !! "currency" = Some (VStr "USD")
    /\ doc_body o !! "status" = Some (VStr "pending")
    /\ to_dict (a_listing "EUR" "active") !! "currency" = Some (VStr "EUR").
Proof.
  destruct (create_offer_defaults counting_env (listing_store "EUR" "active")
              (insert_one "offer" (mkOid "000000000000000000000001")
                 (Offer_dump (mkOffer "buyer-1" "aaaaaaaaaaaaaaaaaaaaaaaa" 100
                                "USD" "pending" None None))
                 (listing_store "EUR" "active"))
              (mkOfferCreate "buyer-1" "aaaaaaaaaaaaaaaaaaaaaaaa" 100)
              {[ "status" := VStr "offer_created";
                 "offer_id" := VStr "000000000000000000000001" ]})
    as (o & H1 & _ & H2 & H3).
  - by_eval.
  - exists o. split; [rewrite H1; by_eval|].
    split; [exact H2|]. split; [exact H3|by_eval].
Defined.

(** C10 at a concrete request: the product of the body has the empty slug
    and one image.  The body passes the request model and the handler sends
    the product to the store without a lookup; [model_dump] has left the
    image a URL object, the encoder of the driver refuses it, and no
    product is stored: on an empty database, and on one that holds a
    product with the empty slug. *)
Lemma create_listing_empty_slug_not_inserted :
  ListingCreate_valid
    (mkListingCreate "seller-1" (no_slug air_max_pictured) 120 "auction") = true
  /\ product_slug (no_slug air_max_pictured) = ""
  /\ product_images (no_slug air_max_pictured) = ["https://img.example/am1.png"]
  /\ serve counting_env
       (POST_listings
          (mkListingCreate "seller-1" (no_slug air_max_pictured) 120 "auction"))
       (Some ∅)
     = (Some ∅, inl InvalidDocument)
  /\ serve counting_env
       (POST_listings
          (mkListingCreate "seller-1" (no_slug air_max_pictured) 120 "auction"))
       (Some (product_store (no_slug air_max)))
     = (Some (product_store (no_slug air_max)), inl InvalidDocument).
Proof. repeat split; by_eval. Qed.


(** * The further properties at concrete requests *)

(** An equation between closed terms, decided by evaluating both sides. *)
Ltac eval_eq :=
  lazymatch goal with |- ?a = ?b => exact (@eq_refl _ a <: a = b) end.

(** The identifiers of [shallow_doc] are one level deep. *)
Lemma serialize_doc_complete_one_level_witness :
  raw_id_free (VDict (serialize_doc counting_env shallow_doc)) = true.
Proof.
  apply (serialize_doc_complete_one_level counting_env shallow_doc).
  intros k v Hk Hne. unfold shallow_doc in Hk.
  repeat (apply lookup_insert_Some in Hk as [[<- <-]|[_ Hk]]; [done|]).
  by apply lookup_singleton_Some in Hk as [_ <-].
Defined.

(** A text that is no identifier, and an identifier that names nothing. *)
Lemma checkout_not_found_witness :
  checkout counting_env (a_checkout "not-an-identifier" "standard")
    (Some (listing_store "USD" "active"))
  = (Some (listing_store "USD" "active"), inl (HTTPException 404 "Listing not found"))
  /\ checkout counting_env (a_checkout "cccccccccccccccccccccccc" "standard")
       (Some (listing_store "USD" "active"))
     = (Some (listing_store "USD" "active"), inl (HTTPException 404 "Listing not found")).
Proof.
  split.
  - apply (checkout_not_found counting_env). left. eval_eq.
  - apply (checkout_not_found counting_env). right. eval_eq.
Defined.

(** A card with an integer and a boolean among its details. *)
Lemma checkout_payment_method_text_witness :
  exists (o : Document) (pm : dict),
    coll (store_of card_checkout_out) "order" = [o]
    /\ doc_body o !! "payment_method" = Some (VDict pm)
    /\ pm !! "last4" = Some (VStr "4242")
    /\ pm !! "saved" = Some (VStr "True")
    /\ pm !! "type" = Some (VStr "card").
Proof.
  destruct (checkout_payment_method_text printing_env (listing_store "USD" "active")
              (store_of card_checkout_out) card_checkout (response_of card_checkout_out))
    as (o & pm & H1 & H2 & H3 & _); [eval_eq|].
  exists o, pm. split; [rewrite H1; eval_eq|]. split; [exact H2|].
  rewrite !H3. repeat split; eval_eq.
Defined.

(** The same identifier in upper and in lower case. *)
Lemma checkout_case_insensitive_witness :
  checkout counting_env
    (with_listing_id "AAAAAAAAAAAAAAAAAAAAAAAA" card_checkout)
    (Some (listing_store "USD" "active"))
  = checkout counting_env
      (with_listing_id "aaaaaaaaaaaaaaaaaaaaaaaa" card_checkout)
      (Some (listing_store "USD" "active")).
Proof.
  apply (checkout_case_insensitive counting_env). eval_eq.
Defined.

(** An offer on the listing that [first_checkout] has sold. *)
Lemma create_offer_on_sold_listing_witness :
  sold_in sold_store (ObjectId_of_str "aaaaaaaaaaaaaaaaaaaaaaaa")
  /\ exists st2 o,
       create_offer counting_env
         (mkOfferCreate "buyer-2" "aaaaaaaaaaaaaaaaaaaaaaaa" 100) (Some sold_store)
       = (Some st2, inr {[ "status" := VStr "offer_created";
                           "offer_id" := VStr (oid_hex (doc_id o)) ]})
       /\ coll st2 "offer" = coll sold_store "offer" ++ [o]
       /\ doc_body o !! "status" = Some (VStr "pending").
Proof.
  apply (create_offer_on_sold_listing counting_env (listing_store "USD" "active")
           sold_store (a_checkout "aaaaaaaaaaaaaaaaaaaaaaaa" "standard")
           (response_of first_checkout)
           (mkOfferCreate "buyer-2" "aaaaaaaaaaaaaaaaaaaaaaaa" 100)).
  - eval_eq.
  - reflexivity.
  - eval_eq.
Defined.

(** One product matches; the first page of twelve holds it. *)
Lemma list_products_page_size_witness :
  exists (total : Z) (items : list value),
    response_of (list_products counting_env (brand_query "nike")
                   (Some (product_store air_max))) !! "total" = Some (VInt total)
    /\ response_of (list_products counting_env (brand_query "nike")
                      (Some (product_store air_max))) !! "items" = Some (VList items)
    /\ Z.of_nat (length items) = 1%Z.
Proof.
  destruct (list_products_page_size counting_env (brand_query "nike")
              (product_store air_max)
              (list_products counting_env (brand_query "nike")
                 (Some (product_store air_max))).1
              (response_of (list_products counting_env (brand_query "nike")
                              (Some (product_store air_max)))))
    as (total & items & H1 & H2 & _ & _ & _ & H3); [eval_eq|eval_eq|].
  exists total, items. split; [exact H1|]. split; [exact H2|].
  rewrite H3. assert (total = 1%Z) as ->; [|eval_eq].
  assert (Some (VInt total) = Some (VInt 1)) as [= ->]; [|done].
  rewrite <- H1. eval_eq.
Defined.

(** Empty texts for the brand and the condition, nothing for the rest. *)
Lemma list_products_no_filter_witness :
  response_field "total"
    (list_products counting_env empty_query (Some (product_store air_max)))
  = Some (VInt 1).
Proof.
  rewrite (list_products_no_filter counting_env empty_query (product_store air_max));
    eval_eq.
Defined.

(** The listing of [air_max_listing] on an empty database. *)
Lemma create_listing_stores_active_witness :
  exists l : Document,
    coll (store_of air_max_listing_out) "listing" = [l]
    /\ doc_body l !! "status" = Some (VStr "active")
    /\ doc_body l !! "currency" = Some (VStr "USD")
    /\ doc_body l !! "price" = Some (VFloat 120).
Proof.
  destruct (create_listing_stores_active counting_env ∅ (store_of air_max_listing_out)
              air_max_listing (response_of air_max_listing_out))
    as (l & H1 & H2 & H3 & H4 & _); [eval_eq|].
  exists l. split; [rewrite H1; eval_eq|]. by repeat split.
Defined.



(** An offer on the listing of [air_max_listing]. *)
Lemma create_listing_then_offer_witness :
  exists (st2 : Store) (o : Document),
    create_offer counting_env
      (mkOfferCreate "buyer-1" "000000000000000000000001" 100)
      (Some (store_of air_max_listing_out))
    = (Some st2, inr {[ "status" := VStr "offer_created";
                        "offer_id" := VStr (oid_hex (doc_id o)) ]})
    /\ doc_body o !! "offer_price" = Some (VFloat 100).
Proof.
  destruct (create_listing_then_offer counting_env ∅ (store_of air_max_listing_out)
              air_max_listing (response_of air_max_listing_out)
              "000000000000000000000001"
              (mkOfferCreate "buyer-1" "000000000000000000000001" 100))
    as (st2 & o & H1 & _ & _ & H2); [eval_eq..|].
  exists st2, o. by split.
Defined.

(** One active listing, then the requests of [requests_between]. *)
Lemma listing_statuses_invariant_witness :
  exists st',
    serve_all counting_env requests_between (Some (listing_store "USD" "active"))
    = Some st'
    /\ Forall active_or_sold (coll st' "listing").
Proof.
  apply (listing_statuses_invariant counting_env (listing_store "USD" "active")
           requests_between).
  replace (coll (listing_store "USD" "active") "listing")
    with [a_listing "USD" "active"] by eval_eq.
  apply Forall_singleton. left. eval_eq.
Defined.

(** Every parameter given, one stored product that meets them all. *)
Lemma list_products_total_selected_witness :
  response_field "total"
    (list_products counting_env full_query (Some (product_store air_max)))
  = Some (VInt 1).
Proof.
  rewrite (list_products_total_selected counting_env full_query
             (product_store air_max) [(oid_b, air_max)]);
    [eval_eq..|apply Forall_singleton; eval_eq|eval_eq].
Defined.


(** A product with one image, listed for the first time on an empty
    database. *)
Lemma create_listing_pictured_product_witness :
  create_listing counting_env air_max_pictured_listing (Some ∅)
  = (Some ∅, inl InvalidDocument)
  /\ product_images air_max_pictured = ["https://img.example/am1.png"].
Proof.
  split; [|reflexivity].
  apply (create_listing_pictured_product counting_env ∅ air_max_pictured_listing).
  - right. eval_eq.
  - eval_eq.
  - eval_eq.
Defined.

(** An active listing, a shipping option of the schema, and a payment
    method with the key "\0type". *)
Lemma checkout_nul_key_witness :
  checkout counting_env nul_checkout (Some (listing_store "USD" "active"))
  = (Some (listing_store "USD" "active"), inl InvalidDocument).
Proof.
  apply (checkout_nul_key counting_env (listing_store "USD" "active") nul_checkout
           (a_listing "USD" "active") 120 "USD").
  - split; eval_eq.
  - right. eval_eq.
  - eval_eq.
  - eval_eq.
  - eval_eq.
  - eval_eq.
  - eval_eq.
  - eval_eq.
Defined.
